(** * ClawdeBot dashboard: the live-state client and the bot-state route

    A shallow embedding of [hooks/use-bot-stream.ts] (the React hook
    [useBotStream]: WebSocket callbacks, reconnect timer, fallback fetch) and
    of the [GET] handler of the [/api/bot] route, followed by the properties
    of the specification that concern them.

    JavaScript values are an inductive type over [gmap string] (objects) and
    [list] (arrays); numbers are exact rationals ([Qc]).  Every number the
    reconnect policy computes (3000, 4500, 6750, 10125, 15187.5, 22781.25,
    30000) is a dyadic rational that binary64 represents exactly, so the
    rational arithmetic agrees with the floating-point one on them.

    Code that can throw lives in a small state-and-exception monad [M]: the
    state part survives a throw, as the React setters already called before an
    exception keep their effect. *)

From Stdlib Require Import QArith Qcanon Lqa.
From stdpp Require Import gmap strings list fin_maps pretty.

#[local] Set Warnings "-register-all".

(** ** JavaScript values *)

Inductive value : Type :=
  | VUndefined
  | VNull
  | VBool (b : bool)
  | VNum (q : Qc)
  | VStr (s : string)
  | VArr (l : list value)
  | VObj (m : gmap string value).

(** Integer literals of the source, as numbers. *)
Definition num (z : Z) : Qc := Q2Qc (inject_Z z).

(** [a <= b] on numbers, as a boolean. *)
Definition Qc_leb (a b : Qc) : bool := Qle_bool a b.

(** [Math.min(a, b)]. *)
Definition Math_min (a b : Qc) : Qc := if Qc_leb a b then a else b.

(** ToBoolean: [undefined], [null], [false], [0] and the empty string are
    falsy; every object and array is truthy. *)
Definition truthy (v : value) : bool :=
  match v with
  | VUndefined | VNull => false
  | VBool b => b
  | VNum q => negb (Qc_eq_bool q (num 0))
  | VStr s => negb (String.eqb s "")
  | VArr _ | VObj _ => true
  end.

(** [a || b]. *)
Definition js_or (a b : value) : value := if truthy a then a else b.

(** [v === "s"] for a string literal [s], as the [switch] compares. *)
Definition strict_eq_str (v : value) (s : string) : bool :=
  match v with
  | VStr s' => String.eqb s' s
  | _ => false
  end.

Definition is_undefined (v : value) : bool :=
  match v with VUndefined => true | _ => false end.

(** The characters of a string, each as a one-character string. *)
Fixpoint chars (s : string) : list value :=
  match s with
  | EmptyString => []
  | String a s' => VStr (String a EmptyString) :: chars s'
  end.

(** Index keys ["0"], ["1"], ... of an array-like. *)
Definition indexed (l : list value) : gmap string value :=
  list_to_map (imap (fun i x => (pretty i, x)) l).

(** The own enumerable properties that an object spread [{...v}] copies:
    the entries of an object, the indices of an array or of a string, and
    nothing for [undefined], [null], booleans and numbers. *)
Definition own_props (v : value) : gmap string value :=
  match v with
  | VObj m => m
  | VArr l => indexed l
  | VStr s => indexed (chars s)
  | _ => ∅
  end.

(** [{...a, ...b}]: the properties of [b] win. *)
Definition spread2 (a b : value) : value := VObj (own_props b ∪ own_props a).

(** What [JSON.stringify] followed by a parse leaves of a value: properties
    whose value is [undefined] are dropped from objects, and [undefined]
    array elements become [null]. *)
Fixpoint to_json (v : value) : value :=
  match v with
  | VArr l => VArr (map (fun x => if is_undefined x then VNull else to_json x) l)
  | VObj m => VObj (omap (fun x => if is_undefined x then None else Some (to_json x)) m)
  | _ => v
  end.

(** A property as JSON keeps it: dropped when [undefined]. *)
Definition json_prop (x : value) : option value :=
  if is_undefined x then None else Some (to_json x).

(** The values of the flat state file: [null], booleans, numbers, strings. *)
Definition scalar (v : value) : bool :=
  match v with
  | VNull | VBool _ | VNum _ | VStr _ => true
  | _ => false
  end.

(** [Array.prototype.slice(start, end)] with its treatment of negative and
    out-of-range indices; [fin = None] is an omitted [end]. *)
Definition js_slice {A} (start : Z) (fin : option Z) (l : list A) : list A :=
  let len := Z.of_nat (length l) in
  let k := if (start <? 0)%Z then Z.max (len + start) 0 else Z.min start len in
  let final :=
    match fin with
    | None => len
    | Some e => if (e <? 0)%Z then Z.max (len + e) 0 else Z.min e len
    end in
  take (Z.to_nat (Z.max (final - k) 0)) (drop (Z.to_nat k) l).

(** ** Exceptions and the monad *)

Record exn := Exn { exn_name : string; exn_message : string }.

(** [String(error)] for an [Error] object. *)
Definition String_of_exn (e : exn) : string :=
  exn_name e +:+ ": " +:+ exn_message e.

Inductive result (A : Type) : Type :=
  | Ok (a : A)
  | Throw (e : exn).
Arguments Ok {A} a.
Arguments Throw {A} e.

Definition M (S A : Type) : Type := S -> result A * S.

#[global] Instance M_ret {S} : MRet (M S) := fun A a s => (Ok a, s).

#[global] Instance M_bind {S} : MBind (M S) := fun A B f c s =>
  match c s with
  | (Ok a, s') => f a s'
  | (Throw e, s') => (Throw e, s')
  end.

Definition throw {S A} (e : exn) : M S A := fun s => (Throw e, s).

(** [try { body } catch (e) { handler e }]. *)
Definition try_catch {S A} (body : M S A) (handler : exn -> M S A) : M S A :=
  fun s =>
    match body s with
    | (Ok a, s') => (Ok a, s')
    | (Throw e, s') => handler e s'
    end.

Definition get_st {S} : M S S := fun s => (Ok s, s).
Definition modify {S} (f : S -> S) : M S unit := fun s => (Ok tt, f s).
Definition when {S} (b : bool) (c : M S unit) : M S unit := if b then c else mret tt.

(** The state a computation leaves behind. *)
Definition exec {S A} (c : M S A) (s : S) : S := snd (c s).

(** Property read [v.k] for the keys this code reads ([type], [data],
    [state], [actions], the snake_case fields, ...), none of which is a
    built-in property of arrays, strings, numbers or booleans: on an object
    the stored value or [undefined], on [undefined] and [null] a TypeError,
    on anything else [undefined]. *)
Definition get_prop {S} (v : value) (k : string) : M S value :=
  match v with
  | VObj m => mret (default VUndefined (m !! k))
  | VUndefined =>
      throw (Exn "TypeError" ("Cannot read properties of undefined (reading '" +:+ k +:+ "')"))
  | VNull =>
      throw (Exn "TypeError" ("Cannot read properties of null (reading '" +:+ k +:+ "')"))
  | _ => mret VUndefined
  end.

(** The outcome of [JSON.parse] on a text (also of [res.json()] on a body):
    the parser is the engine's, so the model takes its outcome as input. *)
Inductive parse_result : Type :=
  | ParseThrows (e : exn)
  | Parsed (v : value).

Definition JSON_parse {S} (p : parse_result) : M S value :=
  match p with
  | ParseThrows e => throw e
  | Parsed v => mret v
  end.

(** ** The hook [useBotStream] (hooks/use-bot-stream.ts) *)

Definition RECONNECT_DELAY : Qc := num 3000.
Definition MAX_RECONNECT_DELAY : Qc := num 30000.

(** The React state cells and refs of one [useBotStream] instance, and what
    the hook has asked of its environment: console lines, pending timers
    (identifier and delay), sockets created and closed, fallback fetches
    started.  [state] is whatever value was last set ([BotState | null] by
    its declaration); [trades] and [actions] are arrays by theirs. *)
Record client := Client {
  isConnected : bool;
  state : value;
  trades : list value;
  actions : list value;
  error : option string;
  wsRef : option nat;
  reconnectTimeoutRef : option nat;
  reconnectDelayRef : Qc;
  mountedRef : bool;
  console : list string;
  timers : list (nat * Qc);
  next_id : nat;
  sockets_closed : list nat;
  fetches_started : nat
}.

(** The cells as [useState] and [useRef] initialise them. *)
Definition initial_client : client :=
  {| isConnected := false; state := VNull; trades := []; actions := [];
     error := None; wsRef := None; reconnectTimeoutRef := None;
     reconnectDelayRef := RECONNECT_DELAY; mountedRef := true;
     console := []; timers := []; next_id := 1; sockets_closed := [];
     fetches_started := 0 |}.

Definition setIsConnected (b : bool) : M client unit := modify (fun c =>
  Client b (state c) (trades c) (actions c) (error c) (wsRef c)
    (reconnectTimeoutRef c) (reconnectDelayRef c) (mountedRef c) (console c)
    (timers c) (next_id c) (sockets_closed c) (fetches_started c)).

(** [setState(prev => f prev)]; [setState(v)] is [setState_with (fun _ => v)]. *)
Definition setState_with (f : value -> value) : M client unit := modify (fun c =>
  Client (isConnected c) (f (state c)) (trades c) (actions c) (error c) (wsRef c)
    (reconnectTimeoutRef c) (reconnectDelayRef c) (mountedRef c) (console c)
    (timers c) (next_id c) (sockets_closed c) (fetches_started c)).
Definition setState (v : value) : M client unit := setState_with (fun _ => v).

Definition setTrades_with (f : list value -> list value) : M client unit := modify (fun c =>
  Client (isConnected c) (state c) (f (trades c)) (actions c) (error c) (wsRef c)
    (reconnectTimeoutRef c) (reconnectDelayRef c) (mountedRef c) (console c)
    (timers c) (next_id c) (sockets_closed c) (fetches_started c)).
Definition setTrades (l : list value) : M client unit := setTrades_with (fun _ => l).

Definition setActions_with (f : list value -> list value) : M client unit := modify (fun c =>
  Client (isConnected c) (state c) (trades c) (f (actions c)) (error c) (wsRef c)
    (reconnectTimeoutRef c) (reconnectDelayRef c) (mountedRef c) (console c)
    (timers c) (next_id c) (sockets_closed c) (fetches_started c)).
Definition setActions (l : list value) : M client unit := setActions_with (fun _ => l).

Definition setError (e : option string) : M client unit := modify (fun c =>
  Client (isConnected c) (state c) (trades c) (actions c) e (wsRef c)
    (reconnectTimeoutRef c) (reconnectDelayRef c) (mountedRef c) (console c)
    (timers c) (next_id c) (sockets_closed c) (fetches_started c)).

Definition set_wsRef (w : option nat) : M client unit := modify (fun c =>
  Client (isConnected c) (state c) (trades c) (actions c) (error c) w
    (reconnectTimeoutRef c) (reconnectDelayRef c) (mountedRef c) (console c)
    (timers c) (next_id c) (sockets_closed c) (fetches_started c)).

Definition set_reconnectTimeoutRef (t : option nat) : M client unit := modify (fun c =>
  Client (isConnected c) (state c) (trades c) (actions c) (error c) (wsRef c)
    t (reconnectDelayRef c) (mountedRef c) (console c)
    (timers c) (next_id c) (sockets_closed c) (fetches_started c)).

Definition set_reconnectDelayRef (d : Qc) : M client unit := modify (fun c =>
  Client (isConnected c) (state c) (trades c) (actions c) (error c) (wsRef c)
    (reconnectTimeoutRef c) d (mountedRef c) (console c)
    (timers c) (next_id c) (sockets_closed c) (fetches_started c)).

Definition set_mountedRef (b : bool) : M client unit := modify (fun c =>
  Client (isConnected c) (state c) (trades c) (actions c) (error c) (wsRef c)
    (reconnectTimeoutRef c) (reconnectDelayRef c) b (console c)
    (timers c) (next_id c) (sockets_closed c) (fetches_started c)).

(** [console.log] and [console.error]: one line appended to the console. *)
Definition console_log (line : string) : M client unit := modify (fun c =>
  Client (isConnected c) (state c) (trades c) (actions c) (error c) (wsRef c)
    (reconnectTimeoutRef c) (reconnectDelayRef c) (mountedRef c) (console c ++ [line])
    (timers c) (next_id c) (sockets_closed c) (fetches_started c)).
Definition console_error (line : string) (e : exn) : M client unit :=
  console_log (line +:+ " " +:+ String_of_exn e).

(** [setTimeout(callback, delay)]: a fresh identifier, the timer pending. *)
Definition setTimeout (delay : Qc) : M client nat := fun c =>
  (Ok (next_id c),
   Client (isConnected c) (state c) (trades c) (actions c) (error c) (wsRef c)
     (reconnectTimeoutRef c) (reconnectDelayRef c) (mountedRef c) (console c)
     (timers c ++ [(next_id c, delay)]) (S (next_id c)) (sockets_closed c)
     (fetches_started c)).

(** [clearTimeout(id)], also what firing does to the pending list. *)
Definition clearTimeout (id : nat) : M client unit := modify (fun c =>
  Client (isConnected c) (state c) (trades c) (actions c) (error c) (wsRef c)
    (reconnectTimeoutRef c) (reconnectDelayRef c) (mountedRef c) (console c)
    (filter (fun t => t.1 ≠ id) (timers c)) (next_id c) (sockets_closed c)
    (fetches_started c)).

(** [new WebSocket(WS_URL)]: the constructor throws (a malformed URL) or
    returns a fresh socket. *)
Definition new_WebSocket (ctor : option exn) : M client nat := fun c =>
  match ctor with
  | Some e => (Throw e, c)
  | None =>
      (Ok (next_id c),
       Client (isConnected c) (state c) (trades c) (actions c) (error c) (wsRef c)
         (reconnectTimeoutRef c) (reconnectDelayRef c) (mountedRef c) (console c)
         (timers c) (S (next_id c)) (sockets_closed c) (fetches_started c))
  end.

(** [ws.close()]. *)
Definition ws_close (w : nat) : M client unit := modify (fun c =>
  Client (isConnected c) (state c) (trades c) (actions c) (error c) (wsRef c)
    (reconnectTimeoutRef c) (reconnectDelayRef c) (mountedRef c) (console c)
    (timers c) (next_id c) (sockets_closed c ++ [w]) (fetches_started c)).

(** The call [fetchInitialState()]: the two requests leave; the body of the
    function past [await Promise.all] is [fetchInitialState] below. *)
Definition fetchInitialState_call : M client unit := modify (fun c =>
  Client (isConnected c) (state c) (trades c) (actions c) (error c) (wsRef c)
    (reconnectTimeoutRef c) (reconnectDelayRef c) (mountedRef c) (console c)
    (timers c) (next_id c) (sockets_closed c) (S (fetches_started c))).

(** *** fetchInitialState *)

Record response := Response { ok : bool; json : parse_result }.

(** How one [fetch] settles: rejected (network failure), or resolved with a
    response, whose [ok] is the 2xx test and whose [json()] parses the body. *)
Inductive fetch_result : Type :=
  | Rejected (e : exn)
  | Resolved (r : response).

(** [await Promise.all([a, b])]: both responses, or the rejection of either
    (the first one's when both reject; the handler only logs it). *)
Definition Promise_all2 {S} (a b : fetch_result) : M S (response * response) :=
  match a, b with
  | Resolved ra, Resolved rb => mret (ra, rb)
  | Rejected e, _ => throw e
  | _, Rejected e => throw e
  end.

(** An array held by a cell declared as an array.  [Trade[]] and
    [BotAction[]] are the declared types of what is stored in [trades] and
    [actions]; a value of another shape has no counterpart in these typed
    cells and is read as the empty array. *)
Definition as_array (v : value) : list value :=
  match v with
  | VArr l => l
  | _ => []
  end.

(** The body of [fetchInitialState] once both fetches have settled; the
    continuation runs as one step (the two [await res.json()] included). *)
Definition fetchInitialState (bot acts : fetch_result) : M client unit :=
  try_catch
    ('(botRes, actionsRes) ← Promise_all2 bot acts;
     when (ok botRes)
       (botData ← JSON_parse (json botRes);
        s ← get_prop botData "state";
        when (truthy s) (setState s));;
     when (ok actionsRes)
       (actionsData ← JSON_parse (json actionsRes);
        a ← get_prop actionsData "actions";
        when (truthy a) (setActions (as_array a))))
    (fun err => console_error "Failed to fetch initial state:" err).

(** *** connect and the socket callbacks *)

(** [ws.onopen]. *)
Definition onopen : M client unit :=
  c ← get_st;
  if negb (mountedRef c) then mret tt else
  console_log "Dashboard connected to bot";;
  setIsConnected true;;
  setError None;;
  set_reconnectDelayRef RECONNECT_DELAY.

(** The [switch (message.type)] of [ws.onmessage]; no [default] branch. *)
Definition dispatch (message : value) : M client unit :=
  ty ← get_prop message "type";
  if strict_eq_str ty "initial_state" then
    data ← get_prop message "data";
    s ← get_prop data "state";
    setState s;;
    rt ← get_prop data "recent_trades";
    setTrades (as_array (js_or rt (VArr [])));;
    ra ← get_prop data "recent_actions";
    setActions (as_array (js_or ra (VArr [])))
  else if strict_eq_str ty "trade" then
    trade ← get_prop message "data";
    setTrades_with (fun prev => js_slice (-49) None prev ++ [trade])
  else if strict_eq_str ty "action" then
    action ← get_prop message "data";
    setActions_with (fun prev => action :: js_slice 0 (Some 49%Z) prev)
  else if strict_eq_str ty "state_update" then
    update ← get_prop message "data";
    setState_with (fun prev => if truthy prev then spread2 prev update else VNull)
  else if strict_eq_str ty "pong" then
    mret tt
  else
    mret tt.

(** [ws.onmessage], given what [JSON.parse(event.data)] does on the frame. *)
Definition onmessage (event_data : parse_result) : M client unit :=
  c ← get_st;
  if negb (mountedRef c) then mret tt else
  try_catch
    (message ← JSON_parse event_data;
     dispatch message)
    (fun err => console_error "Failed to parse WebSocket message:" err).

(** [ws.onclose]: the timer is armed with the delay current at this moment. *)
Definition onclose : M client unit :=
  c ← get_st;
  if negb (mountedRef c) then mret tt else
  console_log "Dashboard disconnected from bot";;
  setIsConnected false;;
  c' ← get_st;
  id ← setTimeout (reconnectDelayRef c');
  set_reconnectTimeoutRef (Some id).

(** [ws.onerror]. *)
Definition onerror (err : exn) : M client unit :=
  console_error "WebSocket error:" err;;
  setError (Some "Failed to connect to bot").

(** [connect()]; [ctor] says whether the WebSocket constructor throws. *)
Definition connect (ctor : option exn) : M client unit :=
  c ← get_st;
  if negb (mountedRef c) then mret tt else
  match wsRef c with Some w => ws_close w | None => mret tt end;;
  try_catch
    (ws ← new_WebSocket ctor;
     set_wsRef (Some ws))
    (fun err =>
       console_error "Failed to create WebSocket:" err;;
       setError (Some "Failed to connect to bot");;
       fetchInitialState_call).

(** The callback given to [setTimeout] in [ws.onclose]. *)
Definition reconnect_callback (ctor : option exn) : M client unit :=
  c ← get_st;
  if mountedRef c then
    set_reconnectDelayRef
      (Math_min (reconnectDelayRef c * Q2Qc (3 # 2)) MAX_RECONNECT_DELAY);;
    connect ctor
  else mret tt.

(** The timer [id] elapses: nothing if it was cleared, else its callback. *)
Definition timer_fires (id : nat) (ctor : option exn) : M client unit :=
  c ← get_st;
  if bool_decide (id ∈ (timers c).*1) then
    clearTimeout id;;
    reconnect_callback ctor
  else mret tt.

(** The effect of [useEffect] and the cleanup it returns. *)
Definition effect (ctor : option exn) : M client unit :=
  set_mountedRef true;;
  connect ctor;;
  fetchInitialState_call.

Definition cleanup : M client unit :=
  set_mountedRef false;;
  c ← get_st;
  match reconnectTimeoutRef c with Some id => clearTimeout id | None => mret tt end;;
  match wsRef c with Some w => ws_close w | None => mret tt end.

(** ** The bot-state route ([GET] of /api/bot) *)

Module BotRoute.

(** The state file as the handler meets it: absent, present but unreadable
    ([readFile] rejects), or read, with what [JSON.parse] does on its text. *)
Inductive state_file : Type :=
  | FileMissing
  | FileUnreadable (e : exn)
  | FileContent (p : parse_result).

Record http_response := HttpResponse { status : nat; body : value }.

Definition existsSync (f : state_file) : bool :=
  match f with FileMissing => false | _ => true end.

(** [await readFile(STATE_FILE, 'utf-8')], then [JSON.parse(content)]. *)
Definition readFile_parse {S} (f : state_file) : M S value :=
  match f with
  | FileMissing => throw (Exn "Error" "ENOENT: no such file or directory")
  | FileUnreadable e => throw e
  | FileContent p => JSON_parse p
  end.

(** [NextResponse.json(body, { status })]: the body goes through JSON. *)
Definition NextResponse_json (b : value) (st : nat) : http_response :=
  HttpResponse st (to_json b).

(** The handler; its state is the server console. *)
Definition GET (f : state_file) : M (list string) http_response :=
  try_catch
    (if negb (existsSync f) then
       mret (NextResponse_json
               (VObj (list_to_map
                  [("connected", VBool false);
                   ("message", VStr "Bot state file not found. Is the bot running?");
                   ("state", VNull)])) 200)
     else
       state ← readFile_parse f;
       token_address ← get_prop state "token_address";
       total_buys ← get_prop state "total_buys";
       total_sells ← get_prop state "total_sells";
       total_buy_volume ← get_prop state "total_buy_volume";
       total_sell_volume ← get_prop state "total_sell_volume";
       last_price ← get_prop state "last_price";
       highest_price ← get_prop state "highest_price";
       lowest_price ← get_prop state "lowest_price";
       last_market_cap ← get_prop state "last_market_cap";
       last_holder_count ← get_prop state "last_holder_count";
       last_creator_rewards_available ← get_prop state "last_creator_rewards_available";
       creator_rewards ← get_prop state "creator_rewards";
       total_analyses ← get_prop state "total_analyses";
       total_alerts ← get_prop state "total_alerts";
       start_time ← get_prop state "start_time";
       analysis_mode ← get_prop state "analysis_mode";
       mret (NextResponse_json
               (VObj (list_to_map
                  [("connected", VBool true);
                   ("state", VObj (list_to_map
                      [("tokenAddress", token_address);
                       ("totalBuys", js_or total_buys (VNum (num 0)));
                       ("totalSells", js_or total_sells (VNum (num 0)));
                       ("totalBuyVolume", js_or total_buy_volume (VNum (num 0)));
                       ("totalSellVolume", js_or total_sell_volume (VNum (num 0)));
                       ("lastPrice", last_price);
                       ("highestPrice", highest_price);
                       ("lowestPrice", lowest_price);
                       ("lastMarketCap", last_market_cap);
                       ("lastHolderCount", last_holder_count);
                       ("lastCreatorRewardsAvailable",
                        js_or last_creator_rewards_available (VNum (num 0)));
                       ("creatorRewards", js_or creator_rewards (VNum (num 0)));
                       ("totalAnalyses", js_or total_analyses (VNum (num 0)));
                       ("totalAlerts", js_or total_alerts (VNum (num 0)));
                       ("startTime", start_time);
                       ("analysisMode", js_or analysis_mode (VStr "brief"))]))])) 200))
    (fun error =>
       modify (fun log => log ++ ["Error reading bot state: " +:+ String_of_exn error]);;
       mret (NextResponse_json
               (VObj (list_to_map
                  [("connected", VBool false);
                   ("message", VStr "Error reading bot state");
                   ("error", VStr (String_of_exn error))])) 500)).

(** The response the handler returns. *)
Definition GET_response (f : state_file) : http_response :=
  match GET f [] with
  | (Ok r, _) => r
  | (Throw _, _) => HttpResponse 500 VUndefined
  end.

(** A field of the [state] object of a response body, if present. *)
Definition state_field (r : http_response) (k : string) : option value :=
  match body r with
  | VObj b => match b !! "state" with
              | Some (VObj s) => s !! k
              | _ => None
              end
  | _ => None
  end.

Definition body_field (r : http_response) (k : string) : option value :=
  match body r with
  | VObj b => b !! k
  | _ => None
  end.

(** The properties of the response state that the handler writes with
    [|| 0], and those it copies as they are, each with the file's name. *)
Definition defaulted_fields : list (string * string) :=
  [("totalBuys", "total_buys"); ("totalSells", "total_sells");
   ("totalBuyVolume", "total_buy_volume"); ("totalSellVolume", "total_sell_volume");
   ("lastCreatorRewardsAvailable", "last_creator_rewards_available");
   ("creatorRewards", "creator_rewards"); ("totalAnalyses", "total_analyses");
   ("totalAlerts", "total_alerts")].

Definition passed_fields : list (string * string) :=
  [("tokenAddress", "token_address"); ("lastPrice", "last_price");
   ("highestPrice", "highest_price"); ("lowestPrice", "lowest_price");
   ("lastMarketCap", "last_market_cap"); ("lastHolderCount", "last_holder_count");
   ("startTime", "start_time")].

End BotRoute.

(** ** Vocabulary of the properties *)

(** The frames of a connection handled in order by [ws.onmessage]. *)
Definition deliver (frames : list parse_result) (c : client) : client :=
  foldl (fun c p => exec (onmessage p) c) c frames.

(** A frame that parses to an object whose [type] is [tag] and whose [data]
    is [d] ([undefined] when the property is missing). *)
Definition is_frame (tag : string) (d : value) (p : parse_result) : Prop :=
  exists m : gmap string value,
    p = Parsed (VObj m) /\ m !! "type" = Some (VStr tag) /\
    default VUndefined (m !! "data") = d.

(** The last [n] elements of a list, in order. *)
Definition last_n {A} (n : nat) (l : list A) : list A :=
  drop (length l - n) l.

(** The five type tags of [WebSocketMessage]. *)
Definition known_tags : list string :=
  ["initial_state"; "trade"; "action"; "state_update"; "pong"].

(** A parsed frame carries a recognised tag when it is an object whose
    [type] is one of the five strings. *)
Definition recognised (v : value) : bool :=
  match v with
  | VObj m =>
      match m !! "type" with
      | Some (VStr s) => bool_decide (s ∈ known_tags)
      | _ => false
      end
  | _ => false
  end.

(** A frame the handler has no case for: unparseable, or parsed to anything
    but an object whose [type] is one of the five known strings. *)
Definition unhandled (p : parse_result) : Prop :=
  match p with
  | ParseThrows _ => True
  | Parsed v => recognised v = false
  end.

(** A field of the state cell, when the state is an object. *)
Definition field (k : string) (v : value) : option value :=
  match v with
  | VObj m => m !! k
  | _ => None
  end.

(** How a fallback request went: rejected; resolved with a status outside
    2xx; resolved ok with a body that parses to an object whose property [k]
    is the truthy value [v]. *)
Definition rejected (f : fetch_result) : Prop := exists e, f = Rejected e.
Definition not_ok (f : fetch_result) : Prop :=
  exists p, f = Resolved (Response false p).
Definition ok_with (k : string) (v : value) (f : fetch_result) : Prop :=
  exists m : gmap string value,
    f = Resolved (Response true (Parsed (VObj m))) /\ m !! k = Some v /\
    truthy v = true.

(** Frames and responses of the scenarios: an [initial_state] frame whose
    snapshot is [s], a bot-state response carrying [s], an actions response
    carrying [l], and a state with [totalBuys = n]. *)
Definition snapshot_frame (s : value) : parse_result :=
  Parsed (VObj {[ "type" := VStr "initial_state"; "data" := VObj {[ "state" := s ]} ]}).
Definition bot_response (s : value) : fetch_result :=
  Resolved (Response true (Parsed (VObj {[ "connected" := VBool true; "state" := s ]}))).
Definition actions_response (l : list value) : fetch_result :=
  Resolved (Response true (Parsed (VObj {[ "actions" := VArr l ]}))).
Definition buys (n : Z) : value := VObj {[ "totalBuys" := VNum (num n) ]}.

(** One failed cycle of the reconnect loop: the socket closes, the timer it
    armed elapses and [connect()] opens the next socket. *)
Definition failed_cycle (c : client) : client :=
  let c1 := exec onclose c in
  match reconnectTimeoutRef c1 with
  | Some id => exec (timer_fires id None) c1
  | None => c1
  end.

(** The state at the [n]-th consecutive failure ([n >= 1]): [n - 1] whole
    cycles, then the close of the [n]-th attempt. *)
Definition nth_failure (n : nat) (c : client) : client :=
  exec onclose (Nat.iter (n - 1) failed_cycle c).

(** One step of the backoff, and the seven values it ever produces from the
    base delay: all are multiples of 1/4 below 2^15, and their products by
    1.5 multiples of 1/8 below 2^16, so binary fractions with a short
    mantissa. *)
Definition backoff_step (d : Qc) : Qc :=
  Math_min (d * Q2Qc (3 # 2)) MAX_RECONNECT_DELAY.

Definition backoff_orbit : list Qc :=
  [num 3000; num 4500; num 6750; num 10125; Q2Qc (30375 # 2); Q2Qc (91125 # 4);
   num 30000].

(** The delay of the timer armed last. *)
Definition scheduled_delay (c : client) : option Qc :=
  snd <$> last (timers c).

(** ** The rest of the hook: a session as a sequence of events *)

(** What the environment can make happen to one hook instance: the socket
    opens, delivers a frame, closes, errors; a timer elapses (with what the
    WebSocket constructor then does); the fallback fetches settle. *)
Inductive event : Type :=
  | EvOpen
  | EvMessage (p : parse_result)
  | EvClose
  | EvError (e : exn)
  | EvTimer (id : nat) (ctor : option exn)
  | EvFetched (bot acts : fetch_result).

Definition handle (ev : event) : M client unit :=
  match ev with
  | EvOpen => onopen
  | EvMessage p => onmessage p
  | EvClose => onclose
  | EvError e => onerror e
  | EvTimer id ctor => timer_fires id ctor
  | EvFetched bot acts => fetchInitialState bot acts
  end.

Definition run_events (evs : list event) (c : client) : client :=
  foldl (fun c ev => exec (handle ev) c) c evs.

(** The events whose handler starts with the [mountedRef] test. *)
Definition guarded (ev : event) : Prop :=
  match ev with
  | EvOpen | EvMessage _ | EvClose | EvTimer _ _ => True
  | EvError _ | EvFetched _ _ => False
  end.

(** A client with its list of pending timers replaced. *)
Definition with_timers (ts : list (nat * Qc)) (c : client) : client :=
  Client (isConnected c) (state c) (trades c) (actions c) (error c) (wsRef c)
    (reconnectTimeoutRef c) (reconnectDelayRef c) (mountedRef c) (console c)
    ts (next_id c) (sockets_closed c) (fetches_started c).

(** A frame that parses to an object whose [type] is the string [tag]. *)
Definition has_tag (tag : string) (p : parse_result) : Prop :=
  exists m : gmap string value, p = Parsed (VObj m) /\ m !! "type" = Some (VStr tag).

(** [undefined] or [null]. *)
Definition nullish (v : value) : bool :=
  match v with
  | VUndefined | VNull => true
  | _ => false
  end.

(** [arr.map(f)] for a callback that may throw. *)
Fixpoint mapM {S A B} (f : A -> M S B) (l : list A) : M S (list B) :=
  match l with
  | [] => mret []
  | x :: l' => y ← f x; ys ← mapM f l'; (mret (y :: ys) : M S (list B))
  end.

(** [arr.filter(f)] for a callback that may throw. *)
Fixpoint filterM {S A} (f : A -> M S bool) (l : list A) : M S (list A) :=
  match l with
  | [] => mret []
  | x :: l' =>
      b ← f x; ys ← filterM f l';
      (mret (if b : bool then x :: ys else ys) : M S (list A))
  end.

(** ** The actions route ([GET] of /api/actions) *)

Module ActionsRoute.

Import BotRoute.

(** [actions.slice(-50).reverse()] on what the file parsed to: an array has
    both methods; a string has [slice] but its result has no [reverse];
    nothing else has [slice]. *)
Definition slice_reverse {S} (actions : value) : M S (list value) :=
  match actions with
  | VArr l => mret (rev (js_slice (-50) None l))
  | VStr _ => throw (Exn "TypeError" "actions.slice(...).reverse is not a function")
  | VUndefined =>
      throw (Exn "TypeError" "Cannot read properties of undefined (reading 'slice')")
  | VNull => throw (Exn "TypeError" "Cannot read properties of null (reading 'slice')")
  | _ => throw (Exn "TypeError" "actions.slice is not a function")
  end.

(** The callback of [recentActions.map]. *)
Definition project {S} (action : value) : M S value :=
  timestamp ← get_prop action "timestamp";
  type ← get_prop action "type";
  description ← get_prop action "description";
  details ← get_prop action "details";
  mret (VObj (list_to_map
          [("timestamp", timestamp); ("type", type);
           ("description", description); ("details", details)])).

(** The handler; its state is the server console. *)
Definition GET (f : state_file) : M (list string) http_response :=
  try_catch
    (if negb (existsSync f) then
       mret (NextResponse_json
               (VObj (list_to_map
                  [("actions", VArr []); ("message", VStr "No actions logged yet")])) 200)
     else
       actions ← readFile_parse f;
       recentActions ← slice_reverse actions;
       projected ← mapM project recentActions;
       mret (NextResponse_json (VObj (list_to_map [("actions", VArr projected)])) 200))
    (fun error =>
       modify (fun log => log ++ ["Error reading actions: " +:+ String_of_exn error]);;
       mret (NextResponse_json
               (VObj (list_to_map
                  [("actions", VArr []); ("error", VStr (String_of_exn error))])) 500)).

Definition GET_response (f : state_file) : http_response :=
  match GET f [] with
  | (Ok r, _) => r
  | (Throw _, _) => HttpResponse 500 VUndefined
  end.

(** What an entry of the log becomes in the response: its four properties,
    those that are [undefined] dropped by JSON. *)
Definition entry_view (action : value) : value :=
  let prop k := match action with
                | VObj m => default VUndefined (m !! k)
                | _ => VUndefined
                end in
  to_json (VObj (list_to_map
     [("timestamp", prop "timestamp"); ("type", prop "type");
      ("description", prop "description"); ("details", prop "details")])).

End ActionsRoute.

(** What [fetch] resolves to for a response of a route of this server:
    [ok] is the 2xx test, [json()] gives back the body. *)
Definition fetch_route (r : BotRoute.http_response) : fetch_result :=
  Resolved (Response ((200 <=? BotRoute.status r) && (BotRoute.status r <=? 299))
              (Parsed (BotRoute.body r))).

(** ** The components that show the view *)

(** [s.slice(start, end)] on a string, by code units (one character each
    for the ASCII strings these components slice). *)
Definition str_slice (start : Z) (fin : option Z) (s : string) : string :=
  Strings.String.string_of_list_ascii (js_slice start fin (Strings.String.list_ascii_of_string s)).

(** [s.padStart(targetLength, padString)]: the pad string repeated and cut
    to the missing length, then [s]; [s] itself when nothing is missing. *)
Definition padStart (targetLength : nat) (padString s : string) : string :=
  let missing := targetLength - String.length s in
  Strings.String.string_of_list_ascii
    (take missing (concat (replicate missing (Strings.String.list_ascii_of_string padString))))
  +:+ s.

Module StatusBar.

(** [formatSession], on the session counter: a natural number, as
    [setSession(prev => prev + 1)] counts up from 0.  [Math.floor] of the
    quotients is the integer division. *)
Definition formatSession (seconds : N) : string :=
  let h := (seconds / 3600)%N in
  let m := ((seconds mod 3600) / 60)%N in
  let s := (seconds mod 60)%N in
  padStart 2 "0" (pretty h) +:+ ":" +:+ padStart 2 "0" (pretty m) +:+ ":" +:+
  padStart 2 "0" (pretty s).

End StatusBar.

Module ActivityLog.

(** [formatWallet], on a string as its parameter is declared. *)
Definition formatWallet (wallet : string) : string :=
  if String.eqb wallet "" || String.eqb wallet "Unknown" then "anon"
  else str_slice 0 (Some 4%Z) wallet +:+ "..." +:+ str_slice (-4) None wallet.

(** [[...trades].reverse().slice(0, 20)]. *)
Definition recentTrades (trades : list value) : list value :=
  js_slice 0 (Some 20%Z) (rev trades).

End ActivityLog.

Module NeuralStream.

Definition fallbackMessages : list value :=
  [VObj (list_to_map [("timestamp", VStr "—");
                      ("message", VStr "Waiting for bot connection...");
                      ("type", VStr "system")])].

(** [actions.length > 0 ? actions : fallbackMessages.map(...)]. *)
Definition displayActions (actions : list value) : list value :=
  if (0 <? length actions)%nat then actions
  else
    map (fun m =>
           let prop k := match m with
                         | VObj o => default VUndefined (o !! k)
                         | _ => VUndefined
                         end in
           VObj (list_to_map [("timestamp", prop "timestamp"); ("type", prop "type");
                              ("description", prop "message"); ("details", VObj ∅)]))
        fallbackMessages.

(** The entries rendered: [[...displayActions].reverse().slice(0, 15)]. *)
Definition rendered (actions : list value) : list value :=
  js_slice 0 (Some 15%Z) (rev (displayActions actions)).

End NeuralStream.

Module AnalysisStream.

(** The callback of [actions.filter]. *)
Definition is_analysis {S} (action : value) : M S bool :=
  type ← get_prop action "type";
  mret (strict_eq_str type "analyze" || strict_eq_str type "auto_analyze").

Definition analysisActions {S} (actions : list value) : M S (list value) :=
  filterM is_analysis actions.

(** The entries rendered: [analysisActions.slice(-5).reverse()] (when
    there is none the component shows a placeholder instead). *)
Definition rendered {S} (actions : list value) : M S (list value) :=
  analysis ← analysisActions actions;
  mret (rev (js_slice (-5) None analysis)).

(** The same test on an entry that is an object. *)
Definition analysis_type (action : value) : bool :=
  match action with
  | VObj m =>
      strict_eq_str (default VUndefined (m !! "type")) "analyze" ||
      strict_eq_str (default VUndefined (m !! "type")) "auto_analyze"
  | _ => false
  end.

End AnalysisStream.

(** ** The hook [useDexScreener] *)

Module UseDexScreener.

Record hook := Hook {
  data : value;
  metrics : value;
  loading : bool;
  error : option string;
  console : list string
}.

Definition initial_hook : hook :=
  {| data := VNull; metrics := VNull; loading := false; error := None; console := [] |}.

Definition setData (v : value) : M hook unit := modify (fun h =>
  Hook v (metrics h) (loading h) (error h) (console h)).
Definition setMetrics (v : value) : M hook unit := modify (fun h =>
  Hook (data h) v (loading h) (error h) (console h)).
Definition setLoading (b : bool) : M hook unit := modify (fun h =>
  Hook (data h) (metrics h) b (error h) (console h)).
Definition setError (e : option string) : M hook unit := modify (fun h =>
  Hook (data h) (metrics h) (loading h) e (console h)).
Definition console_error (line : string) (e : exn) : M hook unit := modify (fun h =>
  Hook (data h) (metrics h) (loading h) (error h)
    (console h ++ [line +:+ " " +:+ String_of_exn e])).

(** [v === 0]. *)
Definition strict_eq_zero (v : value) : bool :=
  match v with
  | VNum q => Qc_eq_bool q (num 0)
  | _ => false
  end.

(** [tokenMetrics.marketCapUsd] on a truthy value. *)
Definition market_cap (tokenMetrics : value) : value :=
  match tokenMetrics with
  | VObj m => default VUndefined (m !! "marketCapUsd")
  | _ => VUndefined
  end.

(** [try { body } finally { final }] for a [final] that does not throw. *)
Definition try_finally {S A} (body : M S A) (final : M S unit) : M S A :=
  fun s =>
    match body s with
    | (r, s') => (r, exec final s')
    end.

(** [refetch] up to [await getTokenMetrics(mint)]: [true] when the call is
    made, [false] when the function has returned for want of a mint. *)
Definition refetch_begin (mint : value) : M hook bool :=
  if negb (truthy mint) then
    setError (Some "No mint address provided");;
    mret false
  else
    setLoading true;;
    setError None;;
    mret true.

(** [refetch] from the moment [getTokenMetrics(mint)] settles, resolved with
    a value or rejected with an [Error]. *)
Definition refetch_settle (tokenMetrics : result value) : M hook unit :=
  try_finally
    (try_catch
       (tm ← (match tokenMetrics with Ok v => mret v | Throw e => throw e end);
        zero ← (if negb (truthy tm) then mret true
                else cap ← get_prop tm "marketCapUsd"; mret (strict_eq_zero cap));
        if zero : bool then
          setError (Some "Token not found");;
          setData VNull;;
          setMetrics VNull
        else
          setData VNull;;
          setMetrics tm)
       (fun err =>
          setError (Some (exn_message err));;
          console_error "[useDexScreener] Error:" err))
    (setLoading false).

(** One whole call of [refetch]. *)
Definition refetch (mint : value) (tokenMetrics : result value) : M hook unit :=
  called ← refetch_begin mint;
  if called : bool then refetch_settle tokenMetrics else mret tt.

End UseDexScreener.


(** ** Basic facts *)

Lemma js_slice_tail {A} (l : list A) :
  js_slice (-49) None l = drop (length l - 49) l.
Proof.
  unfold js_slice. cbn [Z.ltb Z.compare].
  destruct (decide (length l <= 49)) as [Hle|Hgt].
  - replace (Z.max (Z.of_nat (length l) + -49) 0) with 0%Z by lia.
    replace (length l - 49) with 0 by lia.
    rewrite Z.sub_0_r, Z.max_l by lia. rewrite Nat2Z.id.
    change (drop (Z.to_nat 0) l) with l. apply firstn_all.
  - replace (Z.to_nat (Z.max (Z.of_nat (length l) + -49) 0)) with (length l - 49) by lia.
    apply take_ge. rewrite length_drop. lia.
Qed.

Lemma js_slice_head {A} (l : list A) :
  js_slice 0 (Some 49%Z) l = take 49 l.
Proof.
  unfold js_slice. cbn [Z.ltb Z.compare].
  replace (Z.min 0 (Z.of_nat (length l))) with 0%Z by lia.
  rewrite Z.sub_0_r. change (drop (Z.to_nat 0) l) with l.
  destruct (decide (length l <= 49)) as [Hle|Hgt].
  - replace (Z.to_nat (Z.max (Z.min 49 (Z.of_nat (length l))) 0)) with (length l) by lia.
    rewrite firstn_all. symmetry. apply take_ge. lia.
  - replace (Z.to_nat (Z.max (Z.min 49 (Z.of_nat (length l))) 0)) with 49 by lia.
    reflexivity.
Qed.

Lemma last_n_drop_app {A} (n j : nat) (l r : list A) :
  j <= length l -> j <= length l + length r - n ->
  last_n n (drop j l ++ r) = last_n n (l ++ r).
Proof.
  intros Hj Hn. unfold last_n.
  rewrite !length_app, length_drop.
  replace (length l + length r - n) with (j + (length l - j + length r - n)) by lia.
  rewrite <- drop_drop. f_equal.
  rewrite drop_app_le by lia. reflexivity.
Qed.

Lemma take_app_take {A} (n j : nat) (p l : list A) :
  n <= length p + j -> take n (p ++ take j l) = take n (p ++ l).
Proof.
  intros Hn. rewrite !take_app. f_equal.
  rewrite take_take. f_equal. lia.
Qed.

Lemma last_n_all {A} (n : nat) (l : list A) : length l <= n -> last_n n l = l.
Proof. intros H. unfold last_n. replace (length l - n) with 0 by lia. reflexivity. Qed.

Lemma length_last_n {A} (n : nat) (l : list A) : length (last_n n l) <= n.
Proof. unfold last_n. rewrite length_drop. lia. Qed.

(** ** Running the handlers *)

Ltac run_monad :=
  cbv [exec try_catch when JSON_parse get_prop console_error console_log
       setState setTrades setActions setState_with setTrades_with
       setActions_with modify get_st throw mbind M_bind mret M_ret fst snd].

(** A frame that parses to an object with a string [type] goes through
    [dispatch] untouched by the [catch]: reading [type] cannot throw. *)
Lemma onmessage_trade (c : client) (m : gmap string value) :
  mountedRef c = true -> m !! "type" = Some (VStr "trade") ->
  exec (onmessage (Parsed (VObj m))) c =
  exec (setTrades_with (fun prev =>
          js_slice (-49) None prev ++ [default VUndefined (m !! "data")])) c.
Proof.
  intros Hm Hty. destruct c; cbn in Hm; subst.
  unfold onmessage, dispatch. run_monad. rewrite Hty. reflexivity.
Qed.

Lemma onmessage_action (c : client) (m : gmap string value) :
  mountedRef c = true -> m !! "type" = Some (VStr "action") ->
  exec (onmessage (Parsed (VObj m))) c =
  exec (setActions_with (fun prev =>
          default VUndefined (m !! "data") :: js_slice 0 (Some 49%Z) prev)) c.
Proof.
  intros Hm Hty. destruct c; cbn in Hm; subst.
  unfold onmessage, dispatch. run_monad. rewrite Hty. reflexivity.
Qed.

Lemma onmessage_state_update (c : client) (m : gmap string value) :
  mountedRef c = true -> m !! "type" = Some (VStr "state_update") ->
  exec (onmessage (Parsed (VObj m))) c =
  exec (setState_with (fun prev =>
          if truthy prev then spread2 prev (default VUndefined (m !! "data"))
          else VNull)) c.
Proof.
  intros Hm Hty. destruct c; cbn in Hm; subst.
  unfold onmessage, dispatch. run_monad. rewrite Hty. reflexivity.
Qed.

Lemma mounted_setTrades_with (f : list value -> list value) (c : client) :
  mountedRef (exec (setTrades_with f) c) = mountedRef c.
Proof. reflexivity. Qed.

Lemma mounted_setActions_with (f : list value -> list value) (c : client) :
  mountedRef (exec (setActions_with f) c) = mountedRef c.
Proof. reflexivity. Qed.

(** ** Bounded sequences *)

(** C3. For every sequence of [trade] frames handled from a [trades] list of
    at most 50 entries, the list afterwards is the last 50 of the starting
    entries followed by the received trades, in arrival order (newest last),
    and it has at most 50 entries. *)
Theorem trades_hold_last_50 (c : client) (frames : list parse_result) (ts : list value) :
  mountedRef c = true ->
  length (trades c) <= 50 ->
  Forall2 (is_frame "trade") ts frames ->
  trades (deliver frames c) = last_n 50 (trades c ++ ts) /\
  length (trades (deliver frames c)) <= 50.
Proof.
  intros Hm Hlen HF. revert c Hm Hlen.
  induction HF as [|t p ts frames (m & -> & Hty & Hd) _ IH]; intros c Hm Hlen.
  - cbn [deliver foldl]. rewrite app_nil_r, last_n_all by done. done.
  - unfold deliver. cbn [foldl]. fold (deliver frames (exec (onmessage (Parsed (VObj m))) c)).
    rewrite onmessage_trade by done. rewrite Hd.
    set (c1 := exec (setTrades_with _) c).
    assert (Htr : trades c1 = drop (length (trades c) - 49) (trades c) ++ [t]).
    { unfold c1. cbn. by rewrite js_slice_tail. }
    destruct (IH c1) as [IH1 IH2].
    + done.
    + rewrite Htr, length_app, length_drop. cbn [length]. lia.
    + split; [|done]. rewrite IH1, Htr, <- app_assoc.
      cbn [app]. apply last_n_drop_app; cbn [length]; lia.
Qed.

Lemma trades_hold_last_50_witness :
  let c := exec (setTrades (replicate 50 (VStr "old"))) initial_client in
  let frames := [Parsed (VObj {[ "type" := VStr "trade"; "data" := VStr "new" ]})] in
  trades (deliver frames c) = last_n 50 (trades c ++ [VStr "new"]) /\
  length (trades (deliver frames c)) <= 50.
Proof.
  apply trades_hold_last_50.
  - reflexivity.
  - cbn. lia.
  - repeat constructor. eexists. split; [reflexivity|]. split; reflexivity.
Defined.

(** C4. For every sequence of [action] frames handled from an [actions] list
    of at most 50 entries, the list afterwards is the first 50 of the
    received actions, newest first, followed by the starting entries: the
    50 most recent, newest at the head, the tail evicted on overflow. *)
Theorem actions_hold_newest_50 (c : client) (frames : list parse_result) (acts : list value) :
  mountedRef c = true ->
  length (actions c) <= 50 ->
  Forall2 (is_frame "action") acts frames ->
  actions (deliver frames c) = take 50 (rev acts ++ actions c) /\
  length (actions (deliver frames c)) <= 50.
Proof.
  intros Hm Hlen HF. revert c Hm Hlen.
  induction HF as [|a p acts frames (m & -> & Hty & Hd) _ IH]; intros c Hm Hlen.
  - cbn [deliver foldl rev app]. rewrite take_ge by done. done.
  - unfold deliver. cbn [foldl]. fold (deliver frames (exec (onmessage (Parsed (VObj m))) c)).
    rewrite onmessage_action by done. rewrite Hd.
    set (c1 := exec (setActions_with _) c).
    assert (Hac : actions c1 = a :: take 49 (actions c)).
    { unfold c1. cbn. by rewrite js_slice_head. }
    destruct (IH c1) as [IH1 IH2].
    + done.
    + rewrite Hac. cbn [length]. rewrite length_take. lia.
    + split; [|done]. rewrite IH1, Hac. cbn [rev].
      change (a :: take 49 (actions c)) with ([a] ++ take 49 (actions c)).
      rewrite (app_assoc (rev acts) [a]). apply take_app_take.
      rewrite length_app. cbn [length]. lia.
Qed.

Lemma actions_hold_newest_50_witness :
  let c := exec (setActions (replicate 50 (VStr "old"))) initial_client in
  let frames := [Parsed (VObj {[ "type" := VStr "action"; "data" := VStr "new" ]})] in
  actions (deliver frames c) = take 50 (rev [VStr "new"] ++ actions c) /\
  length (actions (deliver frames c)) <= 50.
Proof.
  apply actions_hold_newest_50.
  - reflexivity.
  - cbn. lia.
  - repeat constructor. eexists. split; [reflexivity|]. split; reflexivity.
Defined.

(** ** Reconnect backoff *)

Lemma Qc_leb_false (a b : Qc) : Qc_leb a b = false -> (b < a)%Q.
Proof.
  unfold Qc_leb. intros H. apply Qnot_le_lt. intros Hle.
  apply Qle_bool_iff in Hle. congruence.
Qed.

Lemma Qc_leb_true (a b : Qc) : Qc_leb a b = true -> (a <= b)%Q.
Proof. unfold Qc_leb. apply Qle_bool_iff. Qed.

Lemma this_mul (a b : Qc) : (this (a * b)%Qc == this a * this b)%Q.
Proof. cbn. apply Qred_correct. Qed.

(** [Math_min] is the minimum of the order on rationals. *)
Lemma Math_min_spec (a b : Qc) :
  (a <= b)%Q /\ Math_min a b = a \/ (b < a)%Q /\ Math_min a b = b.
Proof.
  unfold Math_min. destruct (Qc_leb a b) eqn:E.
  - left. split; [by apply Qc_leb_true|done].
  - right. split; [by apply Qc_leb_false|done].
Qed.

(** Capping before or after the multiplication by 1.5 is the same. *)
Lemma Math_min_step (a : Qc) :
  Math_min (Math_min a MAX_RECONNECT_DELAY * Q2Qc (3 # 2)) MAX_RECONNECT_DELAY =
  Math_min (a * Q2Qc (3 # 2)) MAX_RECONNECT_DELAY.
Proof.
  unfold Math_min at 2. destruct (Qc_leb a MAX_RECONNECT_DELAY) eqn:E1; [reflexivity|].
  apply Qc_leb_false in E1.
  unfold Math_min.
  destruct (Qc_leb (a * Q2Qc (3 # 2)) MAX_RECONNECT_DELAY) eqn:E2.
  - exfalso. apply Qc_leb_true in E2. rewrite this_mul in E2.
    change (this MAX_RECONNECT_DELAY) with (30000 # 1)%Q in *.
    change (this (Q2Qc (3 # 2))) with (3 # 2)%Q in *. lra.
  - reflexivity.
Qed.

Lemma onclose_mounted (c : client) :
  mountedRef c = true ->
  mountedRef (exec onclose c) = true /\
  reconnectDelayRef (exec onclose c) = reconnectDelayRef c /\
  reconnectTimeoutRef (exec onclose c) = Some (next_id c) /\
  timers (exec onclose c) = timers c ++ [(next_id c, reconnectDelayRef c)].
Proof. intros Hm. destruct c; cbn in Hm; subst. done. Qed.

Lemma scheduled_delay_onclose (c : client) :
  mountedRef c = true -> scheduled_delay (exec onclose c) = Some (reconnectDelayRef c).
Proof.
  intros Hm. destruct (onclose_mounted c Hm) as (_ & _ & _ & Ht).
  unfold scheduled_delay. rewrite Ht, last_snoc. done.
Qed.

Lemma timer_fires_pending (c : client) (id : nat) :
  mountedRef c = true -> id ∈ (timers c).*1 ->
  mountedRef (exec (timer_fires id None) c) = true /\
  reconnectDelayRef (exec (timer_fires id None) c) =
    Math_min (reconnectDelayRef c * Q2Qc (3 # 2)) MAX_RECONNECT_DELAY.
Proof.
  intros Hm Hin. destruct c; cbn in Hm, Hin; subst.
  unfold timer_fires, exec, get_st. cbv [mbind M_bind]. cbn [timers].
  rewrite bool_decide_eq_true_2 by done.
  destruct wsRef0; done.
Qed.

Lemma failed_cycle_mounted (c : client) :
  mountedRef c = true ->
  mountedRef (failed_cycle c) = true /\
  reconnectDelayRef (failed_cycle c) =
    Math_min (reconnectDelayRef c * Q2Qc (3 # 2)) MAX_RECONNECT_DELAY.
Proof.
  intros Hm. unfold failed_cycle.
  destruct (onclose_mounted c Hm) as (Hm1 & Hd1 & Hr1 & Ht1).
  rewrite Hr1, <- Hd1. apply timer_fires_pending; [done|].
  rewrite Ht1, fmap_app. apply elem_of_app. right. cbn. apply list_elem_of_here.
Qed.

(** After [k] failed cycles from the base delay, the delay held by the ref. *)
Lemma delay_after_cycles (c : client) (k : nat) :
  mountedRef c = true -> reconnectDelayRef c = RECONNECT_DELAY ->
  mountedRef (Nat.iter k failed_cycle c) = true /\
  reconnectDelayRef (Nat.iter k failed_cycle c) =
    Math_min (RECONNECT_DELAY * Qcpower (Q2Qc (3 # 2)) k) MAX_RECONNECT_DELAY.
Proof.
  intros Hm Hd. induction k as [|k [IHm IHd]].
  - change (Nat.iter 0 failed_cycle c) with c. split; [done|]. rewrite Hd.
    apply Qc_is_canon. reflexivity.
  - change (Nat.iter (S k) failed_cycle c) with (failed_cycle (Nat.iter k failed_cycle c)).
    destruct (failed_cycle_mounted _ IHm) as [Hm' Hd'].
    split; [done|]. rewrite Hd', IHd, Math_min_step. f_equal.
    cbn [Qcpower]. ring.
Qed.

(** The delays the loop holds are the seven values of [backoff_orbit]. *)
Lemma backoff_orbit_closed (k : nat) :
  Nat.iter k backoff_step RECONNECT_DELAY ∈ backoff_orbit.
Proof.
  induction k as [|k IH].
  - apply list_elem_of_here.
  - change (Nat.iter (S k) backoff_step RECONNECT_DELAY)
      with (backoff_step (Nat.iter k backoff_step RECONNECT_DELAY)).
    revert IH. generalize (Nat.iter k backoff_step RECONNECT_DELAY). intros d Hd.
    unfold backoff_orbit in Hd.
    repeat (apply elem_of_cons in Hd as [->|Hd]); [..|by apply elem_of_nil in Hd].
    all: apply list_elem_of_In; cbn [In backoff_orbit].
    + do 1 right. left. apply Qc_is_canon. reflexivity.
    + do 2 right. left. apply Qc_is_canon. reflexivity.
    + do 3 right. left. apply Qc_is_canon. reflexivity.
    + do 4 right. left. apply Qc_is_canon. reflexivity.
    + do 5 right. left. apply Qc_is_canon. reflexivity.
    + do 6 right. left. apply Qc_is_canon. reflexivity.
    + do 6 right. left. apply Qc_is_canon. reflexivity.
Qed.

Lemma delay_after_cycles_iter (c : client) (k : nat) :
  mountedRef c = true ->
  mountedRef (Nat.iter k failed_cycle c) = true /\
  reconnectDelayRef (Nat.iter k failed_cycle c) =
    Nat.iter k backoff_step (reconnectDelayRef c).
Proof.
  intros Hm. induction k as [|k [IHm IHd]]; [done|].
  change (Nat.iter (S k) failed_cycle c) with (failed_cycle (Nat.iter k failed_cycle c)).
  destruct (failed_cycle_mounted _ IHm) as [Hm' Hd'].
  split; [done|]. rewrite Hd', IHd. reflexivity.
Qed.

(** Every delay the reconnect loop of a mounted client holds, starting from
    the base delay, is one of the seven values. *)
Lemma held_delay_in_orbit (c : client) (k : nat) :
  mountedRef c = true -> reconnectDelayRef c = RECONNECT_DELAY ->
  reconnectDelayRef (Nat.iter k failed_cycle c) ∈ backoff_orbit.
Proof.
  intros Hm Hd. destruct (delay_after_cycles_iter c k Hm) as [_ ->].
  rewrite Hd. apply backoff_orbit_closed.
Qed.

Lemma onopen_mounted (c : client) :
  mountedRef c = true ->
  mountedRef (exec onopen c) = true /\
  reconnectDelayRef (exec onopen c) = RECONNECT_DELAY /\
  isConnected (exec onopen c) = true.
Proof. intros Hm. destruct c; cbn in Hm; subst. done. Qed.

(** C2. From a mounted client whose delay is the base delay (a fresh client,
    or one whose socket has just opened), the timer armed at the [N]-th
    consecutive failure, [N >= 1], has delay [min(3000 * 1.5^(N-1), 30000)];
    and once a socket opens after any number of failed cycles, the timer
    armed at the next close has delay 3000 again. *)
Theorem reconnect_backoff (c : client) (N : nat) :
  mountedRef c = true ->
  reconnectDelayRef c = RECONNECT_DELAY ->
  1 <= N ->
  scheduled_delay (nth_failure N c) =
    Some (Math_min (num 3000 * Qcpower (Q2Qc (3 # 2)) (N - 1)) (num 30000)) /\
  reconnectDelayRef (exec onopen (Nat.iter N failed_cycle c)) = num 3000 /\
  scheduled_delay (exec onclose (exec onopen (Nat.iter N failed_cycle c))) =
    Some (num 3000).
Proof.
  intros Hm Hd HN.
  destruct (delay_after_cycles c (N - 1) Hm Hd) as [Hm1 Hd1].
  destruct (delay_after_cycles c N Hm Hd) as [Hm2 _].
  destruct (onopen_mounted _ Hm2) as (Hm3 & Hd3 & _).
  split; [|split].
  - unfold nth_failure. rewrite scheduled_delay_onclose by done. by rewrite Hd1.
  - done.
  - rewrite scheduled_delay_onclose by done. by rewrite Hd3.
Qed.

Lemma reconnect_backoff_witness :
  scheduled_delay (nth_failure 3 initial_client) =
    Some (Math_min (num 3000 * Qcpower (Q2Qc (3 # 2)) (3 - 1)) (num 30000)) /\
  reconnectDelayRef (exec onopen (Nat.iter 3 failed_cycle initial_client)) = num 3000 /\
  scheduled_delay (exec onclose (exec onopen (Nat.iter 3 failed_cycle initial_client))) =
    Some (num 3000).
Proof.
  apply (reconnect_backoff initial_client 3).
  - reflexivity.
  - reflexivity.
  - lia.
Defined.

(** ** Message dispatch *)

Lemma unknown_tag_no_case (s : string) :
  bool_decide (s ∈ known_tags) = false ->
  strict_eq_str (VStr s) "initial_state" = false /\
  strict_eq_str (VStr s) "trade" = false /\
  strict_eq_str (VStr s) "action" = false /\
  strict_eq_str (VStr s) "state_update" = false /\
  strict_eq_str (VStr s) "pong" = false.
Proof.
  intros H. apply bool_decide_eq_false in H. unfold strict_eq_str.
  repeat split; apply String.eqb_neq; intros ->; apply H;
    unfold known_tags; set_solver.
Qed.

(** C7. A frame that does not parse, or that parses to a value whose type
    tag is none of the five known ones, makes [ws.onmessage] return normally
    (no exception leaves the handler) with [state], [trades] and [actions]
    as they were; the socket is not closed either. *)
Theorem unhandled_frame_ignored (c : client) (p : parse_result) :
  unhandled p ->
  exists c' : client,
    onmessage p c = (Ok tt, c') /\
    state c' = state c /\ trades c' = trades c /\ actions c' = actions c /\
    wsRef c' = wsRef c /\ sockets_closed c' = sockets_closed c.
Proof.
  intros Hp. destruct c as [ic st tr ac er ws rt rd [|] co ti ni sc fs].
  2: { eexists. split; [reflexivity|done]. }
  destruct p as [e|v]; [eexists; split; [reflexivity|done]|].
  cbn in Hp.
  destruct v as [| | b | q | s | l | m];
    try (eexists; split; [reflexivity|done]).
  cbn in Hp. unfold onmessage, dispatch. run_monad.
  destruct (m !! "type") as [ty|] eqn:Hty; cbv [default from_option id];
    [|eexists; split; [reflexivity|done]].
  destruct ty as [| | b | q | s | l | m'];
    try (eexists; split; [reflexivity|done]).
  apply unknown_tag_no_case in Hp as (H1 & H2 & H3 & H4 & H5).
  rewrite H1, H2, H3, H4, H5.
  eexists; split; [reflexivity|done].
Qed.

Lemma unhandled_frame_ignored_witness :
  exists c' : client,
    onmessage (Parsed (VObj {[ "type" := VStr "ping"; "data" := VNull ]})) initial_client
      = (Ok tt, c') /\
    state c' = state initial_client /\ trades c' = trades initial_client /\
    actions c' = actions initial_client /\
    wsRef c' = wsRef initial_client /\
    sockets_closed c' = sockets_closed initial_client.
Proof.
  apply unhandled_frame_ignored. vm_compute. reflexivity.
Defined.

(** [ws.onmessage] lets no exception out, whatever the frame. *)
Lemma onmessage_never_throws (c : client) (p : parse_result) :
  fst (onmessage p c) = Ok tt.
Proof.
  destruct c as [ic st tr ac er ws rt rd [|] co ti ni sc fs]; [|reflexivity].
  unfold onmessage, try_catch, get_st. cbv [mbind M_bind]. cbn [mountedRef negb].
  match goal with |- context [let (_, _) := ?b in _] => destruct b as [[[]|e] s'] end;
    reflexivity.
Qed.

(** C8. A [state_update] frame handled while a state object exists gives a
    state object in which every property of the update's [data] has the
    update's value and every other property keeps its previous value;
    [trades] and [actions] are untouched.  With no prior state ([null]) the
    frame changes nothing. *)
Theorem state_update_partial_merge (c : client) (m : gmap string value) :
  mountedRef c = true ->
  m !! "type" = Some (VStr "state_update") ->
  let update := own_props (default VUndefined (m !! "data")) in
  let c' := exec (onmessage (Parsed (VObj m))) c in
  (forall prev : gmap string value, state c = VObj prev ->
     exists new : gmap string value,
       state c' = VObj new /\
       (forall k x, update !! k = Some x -> new !! k = Some x) /\
       (forall k, update !! k = None -> new !! k = prev !! k)) /\
  (state c = VNull -> c' = c) /\
  trades c' = trades c /\ actions c' = actions c.
Proof.
  intros Hm Hty update c'. subst c'.
  rewrite onmessage_state_update by done. fold update.
  destruct c as [ic st tr ac er ws rt rd mo co ti ni sc fs]. cbn in *.
  split; [|split; [|done]].
  - intros prev ->. cbn. eexists. split; [reflexivity|]. split.
    + intros k x Hk. by apply lookup_union_Some_l.
    + intros k Hk. by apply lookup_union_r.
  - intros ->. reflexivity.
Qed.

Lemma state_update_partial_merge_witness :
  let c := exec (setState (VObj {[ "totalBuys" := VNum (num 5);
                                    "totalSells" := VNum (num 1) ]})) initial_client in
  let m : gmap string value :=
    {[ "type" := VStr "state_update";
       "data" := VObj {[ "totalBuys" := VNum (num 6) ]} ]} in
  let update := own_props (default VUndefined (m !! "data")) in
  let c' := exec (onmessage (Parsed (VObj m))) c in
  (forall prev : gmap string value, state c = VObj prev ->
     exists new : gmap string value,
       state c' = VObj new /\
       (forall k x, update !! k = Some x -> new !! k = Some x) /\
       (forall k, update !! k = None -> new !! k = prev !! k)) /\
  (state c = VNull -> c' = c) /\
  trades c' = trades c /\ actions c' = actions c.
Proof.
  apply state_update_partial_merge; reflexivity.
Defined.

(** ** The fallback fetch *)

Ltac run_fetch :=
  cbv [fetchInitialState Promise_all2 ok json exec try_catch when JSON_parse get_prop
       console_error console_log setState setActions setState_with setActions_with
       modify get_st throw mbind M_bind mret M_ret fst snd default from_option id].

(** The second half of the body, over every shape of the actions response;
    closes goals that do not depend on it. *)
Ltac case_actions ra :=
  let ma := fresh "ma" in
  let a := fresh "a" in
  destruct ra as [[|] [?|[| | ? | ? | ? | ? | ma]]]; try reflexivity;
  destruct (ma !! "actions") as [a|]; try reflexivity;
  destruct (truthy a); reflexivity.

(** C1 fails on the code: the stream delivers [totalBuys = 5], the fallback
    response resolves afterwards with [totalBuys = 3], and the view ends with
    [totalBuys = 3]. *)
Lemma fallback_overwrites_streamed_state :
  let streamed := exec (onmessage (snapshot_frame (buys 5))) initial_client in
  let final :=
    exec (fetchInitialState (bot_response (buys 3)) (actions_response [])) streamed in
  field "totalBuys" (state streamed) = Some (VNum (num 5)) /\
  field "totalBuys" (state final) = Some (VNum (num 3)) /\
  field "totalBuys" (state final) <> Some (VNum (num 5)).
Proof.
  split; [reflexivity|]. split; [reflexivity|].
  vm_compute. intros H. discriminate H.
Qed.

(** C1, amended. Whatever the view holds, also a state the stream has
    delivered, a fallback bot-state response that is ok and carries a truthy
    [state], with the actions request not rejected, replaces the state cell
    wholesale by the response's state: the last write wins. *)
Theorem fallback_state_last_write_wins (c : client) (bot acts : fetch_result) (s : value) :
  ok_with "state" s bot ->
  ~ rejected acts ->
  state (exec (fetchInitialState bot acts) c) = s.
Proof.
  intros (m & -> & Hs & Ht) Hacts. destruct c.
  destruct acts as [e|ra]; [destruct Hacts; by eexists|].
  run_fetch. rewrite Hs, Ht. case_actions ra.
Qed.

Lemma fallback_state_last_write_wins_witness :
  state (exec (fetchInitialState (bot_response (buys 3)) (actions_response []))
           (exec (onmessage (snapshot_frame (buys 5))) initial_client)) = buys 3.
Proof.
  apply fallback_state_last_write_wins.
  - eexists. split; [reflexivity|]. split; reflexivity.
  - intros [e He]. discriminate He.
Defined.

(** C10. A fallback bot-state response whose body is an object with [state]
    null or absent leaves the state cell as it was, whatever the status of
    that response and whatever the actions request did. *)
Theorem fallback_offline_keeps_state (c : client) (bot acts : fetch_result)
    (b : bool) (m : gmap string value) :
  bot = Resolved (Response b (Parsed (VObj m))) ->
  m !! "state" = None \/ m !! "state" = Some VNull ->
  state (exec (fetchInitialState bot acts) c) = state c.
Proof.
  intros -> Hs. destruct c.
  assert (Hf : truthy (default VUndefined (m !! "state")) = false)
    by (destruct Hs as [-> | ->]; reflexivity).
  destruct acts as [e|ra]; [by destruct b|].
  destruct b; run_fetch; cbv [default from_option id] in Hf; try rewrite Hf;
    case_actions ra.
Qed.

Lemma fallback_offline_keeps_state_witness :
  let c := exec (onmessage (snapshot_frame (buys 5))) initial_client in
  state (exec (fetchInitialState
                 (Resolved (Response true
                    (Parsed (VObj {[ "connected" := VBool false; "state" := VNull ]}))))
                 (actions_response [])) c) = state c.
Proof.
  cbv zeta. eapply fallback_offline_keeps_state.
  - reflexivity.
  - right. reflexivity.
Defined.

(** C5 fails on the code: the bot-state request rejects, the actions request
    succeeds with one action, and the action is not merged. *)
Lemma rejected_bot_blocks_actions :
  let acts := actions_response [VStr "a1"] in
  let c' := exec (fetchInitialState (Rejected (Exn "TypeError" "Failed to fetch")) acts)
              initial_client in
  actions c' = [] /\ actions c' <> [VStr "a1"].
Proof. split; [reflexivity|]. vm_compute. intros H. discriminate H. Qed.

(** C5, amended. When one response has a non-ok status and the other is ok
    with its data, the data of the ok one is merged and the other cell is
    untouched; when either request rejects, [Promise.all] rejects and neither
    [state] nor [actions] (nor [trades]) changes. *)
Theorem fallback_fetches_coupling (c : client) (bot acts : fetch_result) :
  let c' := exec (fetchInitialState bot acts) c in
  (forall l, not_ok bot -> ok_with "actions" (VArr l) acts ->
     actions c' = l /\ state c' = state c) /\
  (forall s, ok_with "state" s bot -> not_ok acts ->
     state c' = s /\ actions c' = actions c) /\
  (rejected bot \/ rejected acts ->
     state c' = state c /\ actions c' = actions c /\ trades c' = trades c).
Proof.
  cbv zeta. destruct c. split; [|split].
  - intros l [pb ->] (ma & -> & Ha & _). run_fetch. rewrite Ha. done.
  - intros s (m & -> & Hs & Ht) [pa ->]. run_fetch. rewrite Hs, Ht. done.
  - intros [[e ->]|[e ->]]; [done|]. by destruct bot.
Qed.

Lemma fallback_fetches_coupling_witness :
  let bad := Resolved (Response false (Parsed VNull)) in
  actions (exec (fetchInitialState bad (actions_response [VStr "a1"])) initial_client)
    = [VStr "a1"] /\
  state (exec (fetchInitialState (bot_response (buys 3)) bad) initial_client) = buys 3 /\
  actions (exec (fetchInitialState (Rejected (Exn "TypeError" "Failed to fetch"))
                   (actions_response [VStr "a1"])) initial_client) = [].
Proof.
  cbv zeta. split; [|split].
  - apply (fallback_fetches_coupling initial_client).
    + eexists. reflexivity.
    + eexists. split; [reflexivity|]. split; reflexivity.
  - apply (fallback_fetches_coupling initial_client).
    + eexists. split; [reflexivity|]. split; reflexivity.
    + eexists. reflexivity.
  - apply (fallback_fetches_coupling initial_client
             (Rejected (Exn "TypeError" "Failed to fetch"))).
    left. eexists. reflexivity.
Defined.

(** C6 on the code. The effect runs, then its cleanup clears [mountedRef];
    the fallback fetch resolves afterwards and its data is written to
    [state] and [actions]: [fetchInitialState] never reads the flag.  A
    frame arriving at the same moment is dropped, as [ws.onmessage] (like
    [onopen], [onclose] and the timer callback) returns on a cleared flag. *)
Theorem fetch_applied_after_cleanup :
  let stopped := exec cleanup (exec (effect None) initial_client) in
  let c' := exec (fetchInitialState (bot_response (buys 3))
                    (actions_response [VStr "a1"])) stopped in
  mountedRef stopped = false /\
  state stopped = VNull /\ actions stopped = [] /\
  state c' = buys 3 /\ actions c' = [VStr "a1"] /\
  exec (onmessage (snapshot_frame (buys 3))) stopped = stopped.
Proof. repeat split. Qed.

(** ** The bot-state route *)

Import BotRoute.

Ltac map_lookup :=
  repeat first [rewrite lookup_insert_eq | rewrite lookup_insert_ne by done].

Ltac run_route :=
  unfold state_field, body_field, GET_response, GET, NextResponse_json;
  cbv [exec try_catch when JSON_parse get_prop readFile_parse existsSync negb body
       status modify get_st throw mbind M_bind mret M_ret];
  cbn [to_json list_to_map foldr uncurry fst snd].

Ltac in_table :=
  repeat first [apply list_elem_of_here | apply list_elem_of_further].

Ltac route_field :=
  run_route;
  rewrite lookup_omap; map_lookup;
  cbn [mbind option_bind is_undefined to_json];
  rewrite lookup_omap; map_lookup.

Lemma scalar_json (v : value) : scalar v = true -> json_prop v = Some v.
Proof. by destruct v. Qed.

Lemma scalar_js_or (v d : value) :
  scalar v = true -> scalar d = true -> scalar (js_or v d) = true.
Proof. unfold js_or. by destruct (truthy v). Qed.

Lemma defaulted_field (m : gmap string value) (camel snake : string) :
  (camel, snake) ∈ defaulted_fields ->
  state_field (GET_response (FileContent (Parsed (VObj m)))) camel =
  json_prop (js_or (default VUndefined (m !! snake)) (VNum (num 0))).
Proof.
  intros H. unfold defaulted_fields in H.
  repeat (apply elem_of_cons in H as [[= -> ->]|H]); [..|by apply elem_of_nil in H];
    route_field; reflexivity.
Qed.

Lemma passed_field (m : gmap string value) (camel snake : string) :
  (camel, snake) ∈ passed_fields ->
  state_field (GET_response (FileContent (Parsed (VObj m)))) camel =
  json_prop (default VUndefined (m !! snake)).
Proof.
  intros H. unfold passed_fields in H.
  repeat (apply elem_of_cons in H as [[= -> ->]|H]); [..|by apply elem_of_nil in H];
    route_field; reflexivity.
Qed.

Lemma analysis_mode_field (m : gmap string value) :
  state_field (GET_response (FileContent (Parsed (VObj m)))) "analysisMode" =
  json_prop (js_or (default VUndefined (m !! "analysis_mode")) (VStr "brief")).
Proof. route_field. reflexivity. Qed.

(** The handler catches everything: it always returns a response. *)
Lemma GET_never_throws (f : state_file) (log : list string) :
  exists r log', GET f log = (Ok r, log').
Proof.
  destruct f as [|e|[e|v]]; try (do 2 eexists; reflexivity).
  destruct v; do 2 eexists; reflexivity.
Qed.

(** A state file holding the JSON text [null] parses, and the first property
    read throws: the handler answers 500. *)
Lemma null_state_file_is_server_error :
  status (GET_response (FileContent (Parsed VNull))) = 500 /\
  body_field (GET_response (FileContent (Parsed VNull))) "connected" = Some (VBool false) /\
  body_field (GET_response (FileContent (Parsed VNull))) "state" = None.
Proof. repeat split. Qed.

(** C9 fails on the code: the state file is the object [{}], it exists and
    parses, and the numeric field [lastPrice] is absent from the response
    state instead of being 0 (while [totalBuys] is 0). *)
Lemma absent_last_price_not_defaulted :
  let r := GET_response (FileContent (Parsed (VObj ∅))) in
  status r = 200 /\
  state_field r "totalBuys" = Some (VNum (num 0)) /\
  state_field r "lastPrice" = None /\
  state_field r "lastPrice" <> Some (VNum (num 0)).
Proof. cbv zeta. repeat split. vm_compute. intros H. discriminate H. Qed.

(** C9, amended. When the state file exists and parses to an object, the
    handler answers 200 with [connected: true] and a [state] whose camelCase
    properties come from the snake_case ones of the file: the eight counters
    written with [|| 0] are 0 when absent from the file (or falsy) and the
    file's value otherwise; the other properties ([tokenAddress] and the
    nullable numbers [lastPrice], [highestPrice], [lowestPrice],
    [lastMarketCap], [lastHolderCount], [startTime]) carry the file's value
    and are absent when the file has none.  An absent file gives 200 with
    [connected: false] and [state: null]; a read or parse failure gives 500
    with [connected: false] and the error's text in [error]. *)
Theorem bot_route_responses (m : gmap string value) (e : exn) :
  let r := GET_response (FileContent (Parsed (VObj m))) in
  (status r = 200 /\ body_field r "connected" = Some (VBool true)) /\
  (forall camel snake, (camel, snake) ∈ defaulted_fields ->
     (m !! snake = None -> state_field r camel = Some (VNum (num 0))) /\
     (forall v, m !! snake = Some v -> scalar v = true ->
        state_field r camel = Some (js_or v (VNum (num 0))))) /\
  (forall camel snake, (camel, snake) ∈ passed_fields ->
     (m !! snake = None -> state_field r camel = None) /\
     (forall v, m !! snake = Some v -> scalar v = true ->
        state_field r camel = Some v)) /\
  (status (GET_response FileMissing) = 200 /\
   body_field (GET_response FileMissing) "connected" = Some (VBool false) /\
   body_field (GET_response FileMissing) "state" = Some VNull) /\
  (forall f, f = FileUnreadable e \/ f = FileContent (ParseThrows e) ->
     status (GET_response f) = 500 /\
     body_field (GET_response f) "connected" = Some (VBool false) /\
     body_field (GET_response f) "error" = Some (VStr (String_of_exn e))).
Proof.
  cbv zeta. split; [|split; [|split; [|split]]].
  - split; [reflexivity|]. run_route. rewrite lookup_omap. map_lookup. reflexivity.
  - intros camel snake Hin. rewrite (defaulted_field m camel snake Hin). split.
    + intros ->. reflexivity.
    + intros v -> Hv. apply scalar_json. by apply scalar_js_or.
  - intros camel snake Hin. rewrite (passed_field m camel snake Hin). split.
    + intros ->. reflexivity.
    + intros v -> Hv. by apply scalar_json.
  - repeat split.
  - intros f [-> | ->]; (split; [reflexivity|]);
      (split; run_route; rewrite lookup_omap; map_lookup; reflexivity).
Qed.

Lemma bot_route_responses_witness :
  let m : gmap string value :=
    {[ "total_buys" := VNum (num 7); "last_price" := VNull ]} in
  let r := GET_response (FileContent (Parsed (VObj m))) in
  state_field r "totalSells" = Some (VNum (num 0)) /\
  state_field r "totalBuys" = Some (js_or (VNum (num 7)) (VNum (num 0))) /\
  state_field r "highestPrice" = None /\
  state_field r "lastPrice" = Some VNull /\
  status (GET_response (FileContent (ParseThrows (Exn "SyntaxError" "Unexpected token")))) = 500.
Proof.
  cbv zeta.
  pose proof (bot_route_responses
                {[ "total_buys" := VNum (num 7); "last_price" := VNull ]}
                (Exn "SyntaxError" "Unexpected token"))
    as (_ & Hd & Hp & _ & He).
  split; [|split; [|split; [|split]]].
  - apply (Hd "totalSells" "total_sells"); [in_table|reflexivity].
  - apply (Hd "totalBuys" "total_buys"); [in_table|reflexivity|reflexivity].
  - apply (Hp "highestPrice" "highest_price"); [in_table|reflexivity].
  - apply (Hp "lastPrice" "last_price"); [in_table|reflexivity|reflexivity].
  - apply He. right. reflexivity.
Defined.

(** ** More on the frames *)

Lemma js_slice_suffix {A} (n : nat) (l : list A) :
  0 < n -> js_slice (- Z.of_nat n) None l = drop (length l - n) l.
Proof.
  intros Hn. unfold js_slice.
  replace (- Z.of_nat n <? 0)%Z with true by (symmetry; apply Z.ltb_lt; lia).
  destruct (decide (length l <= n)) as [Hle|Hgt].
  - replace (Z.max (Z.of_nat (length l) + - Z.of_nat n) 0) with 0%Z by lia.
    replace (length l - n) with 0 by lia.
    rewrite Z.sub_0_r, Z.max_l by lia. rewrite Nat2Z.id.
    change (drop (Z.to_nat 0) l) with l. apply firstn_all.
  - replace (Z.to_nat (Z.max (Z.of_nat (length l) + - Z.of_nat n) 0))
      with (length l - n) by lia.
    apply take_ge. rewrite length_drop. lia.
Qed.

Lemma js_slice_prefix {A} (n : nat) (l : list A) :
  js_slice 0 (Some (Z.of_nat n)) l = take n l.
Proof.
  unfold js_slice. cbn [Z.ltb Z.compare].
  replace (Z.of_nat n <? 0)%Z with false by (symmetry; apply Z.ltb_ge; lia).
  replace (Z.min 0 (Z.of_nat (length l))) with 0%Z by lia.
  rewrite Z.sub_0_r. change (drop (Z.to_nat 0) l) with l.
  destruct (decide (length l <= n)) as [Hle|Hgt].
  - replace (Z.to_nat (Z.max (Z.min (Z.of_nat n) (Z.of_nat (length l))) 0))
      with (length l) by lia.
    rewrite firstn_all. symmetry. apply take_ge. lia.
  - replace (Z.to_nat (Z.max (Z.min (Z.of_nat n) (Z.of_nat (length l))) 0))
      with n by lia.
    reflexivity.
Qed.

Lemma rev_last_n {A} (n : nat) (l : list A) : rev (last_n n l) = take n (rev l).
Proof. unfold last_n. symmetry. apply firstn_rev. Qed.

(** The trades after a run of [trade] frames, from a list of any length as
    soon as one frame has come. *)
Lemma trades_after_frames (c : client) (frames : list parse_result) (ts : list value) :
  mountedRef c = true ->
  Forall2 (is_frame "trade") ts frames ->
  ts <> [] \/ length (trades c) <= 50 ->
  trades (deliver frames c) = last_n 50 (trades c ++ ts).
Proof.
  intros Hm HF. revert c Hm.
  induction HF as [|t p ts frames (m & -> & Hty & Hd) _ IH]; intros c Hm Hlen.
  - destruct Hlen as [?|Hlen]; [done|].
    cbn [deliver foldl]. by rewrite app_nil_r, last_n_all.
  - unfold deliver. cbn [foldl].
    fold (deliver frames (exec (onmessage (Parsed (VObj m))) c)).
    rewrite onmessage_trade by done. rewrite Hd.
    set (c1 := exec (setTrades_with _) c).
    assert (Htr : trades c1 = drop (length (trades c) - 49) (trades c) ++ [t]).
    { unfold c1. cbn. by rewrite js_slice_tail. }
    rewrite IH; [|done|].
    + rewrite Htr, <- app_assoc. cbn [app].
      apply last_n_drop_app; cbn [length]; lia.
    + right. rewrite Htr, length_app, length_drop. cbn [length]. lia.
Qed.

Lemma actions_after_frames (c : client) (frames : list parse_result) (acts : list value) :
  mountedRef c = true ->
  Forall2 (is_frame "action") acts frames ->
  acts <> [] \/ length (actions c) <= 50 ->
  actions (deliver frames c) = take 50 (rev acts ++ actions c).
Proof.
  intros Hm HF. revert c Hm.
  induction HF as [|a p acts frames (m & -> & Hty & Hd) _ IH]; intros c Hm Hlen.
  - destruct Hlen as [?|Hlen]; [done|].
    cbn [deliver foldl rev app]. by rewrite take_ge.
  - unfold deliver. cbn [foldl].
    fold (deliver frames (exec (onmessage (Parsed (VObj m))) c)).
    rewrite onmessage_action by done. rewrite Hd.
    set (c1 := exec (setActions_with _) c).
    assert (Hac : actions c1 = a :: take 49 (actions c)).
    { unfold c1. cbn. by rewrite js_slice_head. }
    rewrite IH; [|done|].
    + rewrite Hac. cbn [rev].
      change (a :: take 49 (actions c)) with ([a] ++ take 49 (actions c)).
      rewrite (app_assoc (rev acts) [a]). apply take_app_take.
      rewrite length_app. cbn [length]. lia.
    + right. rewrite Hac. cbn [length]. rewrite length_take. lia.
Qed.

(** X4. As soon as one [trade] frame has been handled, [trades] is the last
    50 of the previous entries followed by the received ones and has at most
    50 entries, whatever the length of the list before (a snapshot may have
    set more than 50). *)
Theorem trades_bound_restored (c : client) (frames : list parse_result) (ts : list value) :
  mountedRef c = true ->
  Forall2 (is_frame "trade") ts frames ->
  ts <> [] ->
  trades (deliver frames c) = last_n 50 (trades c ++ ts) /\
  length (trades (deliver frames c)) <= 50.
Proof.
  intros Hm HF Hne.
  rewrite (trades_after_frames c frames ts) by auto.
  split; [done|]. apply length_last_n.
Qed.

Lemma trades_bound_restored_witness :
  let c := exec (setTrades (replicate 60 (VStr "old"))) initial_client in
  let frames := [Parsed (VObj {[ "type" := VStr "trade"; "data" := VStr "new" ]})] in
  trades (deliver frames c) = last_n 50 (trades c ++ [VStr "new"]) /\
  length (trades (deliver frames c)) <= 50.
Proof.
  apply trades_bound_restored.
  - reflexivity.
  - repeat constructor. eexists. split; [reflexivity|]. split; reflexivity.
  - discriminate.
Defined.

(** X5. As soon as one [action] frame has been handled, [actions] is the
    first 50 of the received actions, newest first, followed by the previous
    entries, and has at most 50 entries, whatever the length before. *)
Theorem actions_bound_restored (c : client) (frames : list parse_result) (acts : list value) :
  mountedRef c = true ->
  Forall2 (is_frame "action") acts frames ->
  acts <> [] ->
  actions (deliver frames c) = take 50 (rev acts ++ actions c) /\
  length (actions (deliver frames c)) <= 50.
Proof.
  intros Hm HF Hne.
  rewrite (actions_after_frames c frames acts) by auto.
  split; [done|]. rewrite length_take. lia.
Qed.

Lemma actions_bound_restored_witness :
  let c := exec (setActions (replicate 60 (VStr "old"))) initial_client in
  let frames := [Parsed (VObj {[ "type" := VStr "action"; "data" := VStr "new" ]})] in
  actions (deliver frames c) = take 50 (rev [VStr "new"] ++ actions c) /\
  length (actions (deliver frames c)) <= 50.
Proof.
  apply actions_bound_restored.
  - reflexivity.
  - repeat constructor. eexists. split; [reflexivity|]. split; reflexivity.
  - discriminate.
Defined.

(** X1. An [initial_state] frame whose [data] is an object replaces the
    three cells wholesale: [state] becomes [data.state], [trades] and
    [actions] become the arrays of [data] or the empty array when the
    property is missing or null; nothing of the previous state, trades or
    actions survives, and the connection cells and the console are left
    alone. *)
Theorem snapshot_replaces_view (c : client) (m d : gmap string value) :
  mountedRef c = true ->
  m !! "type" = Some (VStr "initial_state") ->
  m !! "data" = Some (VObj d) ->
  let c' := exec (onmessage (Parsed (VObj m))) c in
  state c' = default VUndefined (d !! "state") /\
  (forall l, d !! "recent_trades" = Some (VArr l) -> trades c' = l) /\
  (d !! "recent_trades" = None \/ d !! "recent_trades" = Some VNull -> trades c' = []) /\
  (forall l, d !! "recent_actions" = Some (VArr l) -> actions c' = l) /\
  (d !! "recent_actions" = None \/ d !! "recent_actions" = Some VNull -> actions c' = []) /\
  isConnected c' = isConnected c /\ error c' = error c /\ console c' = console c.
Proof.
  intros Hm Hty Hd. destruct c; cbn in Hm; subst.
  unfold onmessage, dispatch. run_monad. rewrite Hty, Hd.
  cbv [default from_option id]. cbn.
  repeat split.
  - intros l ->. reflexivity.
  - intros [-> | ->]; reflexivity.
  - intros l ->. reflexivity.
  - intros [-> | ->]; reflexivity.
Qed.

Lemma snapshot_replaces_view_witness :
  let c := exec (setTrades [VStr "stale"]) initial_client in
  let d : gmap string value :=
    {[ "state" := buys 7; "recent_trades" := VArr [VStr "t1"; VStr "t2"] ]} in
  let c' := exec (onmessage (Parsed (VObj {[ "type" := VStr "initial_state";
                                              "data" := VObj d ]}))) c in
  state c' = buys 7 /\ trades c' = [VStr "t1"; VStr "t2"] /\ actions c' = [].
Proof.
  cbv zeta.
  pose proof (snapshot_replaces_view
                (exec (setTrades [VStr "stale"]) initial_client)
                {[ "type" := VStr "initial_state";
                   "data" := VObj {[ "state" := buys 7;
                                     "recent_trades" := VArr [VStr "t1"; VStr "t2"] ]} ]}
                {[ "state" := buys 7; "recent_trades" := VArr [VStr "t1"; VStr "t2"] ]}
                eq_refl eq_refl eq_refl) as (Hs & Ht & _ & _ & Ha & _).
  split; [exact Hs|]. split; [apply Ht; reflexivity|apply Ha; left; reflexivity].
Defined.

(** X2. An [initial_state] frame without [data], or with [data] null, is
    dropped: reading [data.state] throws inside the [try], the handler
    returns normally, writes one console line and changes nothing else. *)
Theorem snapshot_without_data_dropped (c : client) (m : gmap string value) :
  mountedRef c = true ->
  m !! "type" = Some (VStr "initial_state") ->
  m !! "data" = None \/ m !! "data" = Some VNull ->
  exists line : string,
    onmessage (Parsed (VObj m)) c = (Ok tt, exec (console_log line) c).
Proof.
  intros Hm Hty Hd. destruct c; cbn in Hm; subst.
  unfold onmessage, dispatch. run_monad. rewrite Hty.
  destruct Hd as [-> | ->]; cbv [default from_option id]; cbn;
    eexists; reflexivity.
Qed.

Lemma snapshot_without_data_dropped_witness :
  exists line : string,
    onmessage (Parsed (VObj {[ "type" := VStr "initial_state" ]})) initial_client =
    (Ok tt, exec (console_log line) initial_client).
Proof.
  apply snapshot_without_data_dropped; [reflexivity|reflexivity|left; reflexivity].
Defined.

(** X3. Each incremental frame touches one cell only: a [trade] frame
    leaves [state] and [actions] as they are, an [action] frame leaves
    [state] and [trades], and a [pong] frame leaves the whole client. *)
Theorem frames_touch_one_cell (c : client) (p : parse_result) :
  (has_tag "trade" p ->
     state (exec (onmessage p) c) = state c /\
     actions (exec (onmessage p) c) = actions c) /\
  (has_tag "action" p ->
     state (exec (onmessage p) c) = state c /\
     trades (exec (onmessage p) c) = trades c) /\
  (has_tag "pong" p -> exec (onmessage p) c = c).
Proof.
  destruct c as [ic st tr ac er ws rt rd [|] co ti ni sc fs].
  - split; [|split]; intros (m & -> & Hty);
      unfold onmessage, dispatch; run_monad; rewrite Hty; try split; reflexivity.
  - split; [|split]; intros _; try split; reflexivity.
Qed.

Lemma frames_touch_one_cell_witness :
  let c := exec (setState (buys 5)) initial_client in
  state (exec (onmessage (Parsed (VObj {[ "type" := VStr "trade";
                                          "data" := VStr "t" ]}))) c) = state c /\
  exec (onmessage (Parsed (VObj {[ "type" := VStr "pong" ]}))) c = c.
Proof.
  cbv zeta. split.
  - apply (proj1 (frames_touch_one_cell (exec (setState (buys 5)) initial_client)
                    (Parsed (VObj {[ "type" := VStr "trade"; "data" := VStr "t" ]})))).
    eexists. split; reflexivity.
  - apply (proj2 (proj2 (frames_touch_one_cell (exec (setState (buys 5)) initial_client)
                    (Parsed (VObj {[ "type" := VStr "pong" ]}))))).
    eexists. split; reflexivity.
Defined.

(** One frame that is not a snapshot keeps both lists within 50 entries. *)
Lemma onmessage_keeps_bounds (c : client) (p : parse_result) :
  ~ has_tag "initial_state" p ->
  length (trades c) <= 50 -> length (actions c) <= 50 ->
  length (trades (exec (onmessage p) c)) <= 50 /\
  length (actions (exec (onmessage p) c)) <= 50.
Proof.
  intros Hp Ht Ha. destruct c as [ic st tr ac er ws rt rd [|] co ti ni sc fs];
    [|done].
  destruct p as [e|v]; [done|].
  destruct v as [| | b | q | s | l | m]; try done.
  unfold onmessage, dispatch. run_monad.
  destruct (m !! "type") as [ty|] eqn:Hty; cbv [default from_option id]; [|done].
  destruct ty as [| | b | q | s | l | m']; try done.
  destruct (strict_eq_str (VStr s) "initial_state") eqn:E1.
  { exfalso. apply Hp. exists m. split; [done|].
    apply String.eqb_eq in E1. by subst. }
  destruct (strict_eq_str (VStr s) "trade") eqn:E2.
  { cbn in *. split; [|done].
    rewrite js_slice_tail, length_app, length_drop. cbn [length]. lia. }
  destruct (strict_eq_str (VStr s) "action") eqn:E3.
  { cbn in *. split; [done|].
    rewrite js_slice_head. cbn [length]. rewrite length_take. lia. }
  destruct (strict_eq_str (VStr s) "state_update") eqn:E4; [done|].
  destruct (strict_eq_str (VStr s) "pong") eqn:E5; done.
Qed.

(** X6. Over any sequence of frames none of which is an [initial_state]
    frame (frames of any tag, unparseable frames, frames that are no
    objects), [trades] and [actions] stay within 50 entries each. *)
Theorem lists_stay_bounded (c : client) (frames : list parse_result) :
  Forall (fun p => ~ has_tag "initial_state" p) frames ->
  length (trades c) <= 50 -> length (actions c) <= 50 ->
  length (trades (deliver frames c)) <= 50 /\
  length (actions (deliver frames c)) <= 50.
Proof.
  intros HF. revert c. induction HF as [|p frames Hp _ IH]; intros c Ht Ha; [done|].
  unfold deliver. cbn [foldl]. fold (deliver frames (exec (onmessage p) c)).
  destruct (onmessage_keeps_bounds c p Hp Ht Ha). by apply IH.
Qed.

Lemma lists_stay_bounded_witness :
  let c := exec (setTrades (replicate 50 (VStr "old"))) initial_client in
  let frames :=
    [Parsed (VObj {[ "type" := VStr "trade"; "data" := VStr "t" ]});
     ParseThrows (Exn "SyntaxError" "Unexpected end of JSON input");
     Parsed (VObj {[ "type" := VStr "action" ]}); Parsed VNull] in
  length (trades (deliver frames c)) <= 50 /\
  length (actions (deliver frames c)) <= 50.
Proof.
  apply lists_stay_bounded.
  - repeat constructor; intros (m & Hp & Hty); simplify_eq; vm_compute in Hty;
      discriminate.
  - cbn. lia.
  - cbn. lia.
Defined.

(** ** Mount, connect and shutdown *)

(** On a client whose flag is cleared, a guarded handler changes nothing but
    the list of pending timers, which can only shrink. *)
Lemma guarded_event_unmounted (c : client) (ev : event) :
  mountedRef c = false -> guarded ev ->
  with_timers [] (exec (handle ev) c) = with_timers [] c /\
  timers (exec (handle ev) c) `sublist_of` timers c /\
  mountedRef (exec (handle ev) c) = false.
Proof.
  intros Hm Hg. destruct c as [ic st tr ac er ws rt rd mo co ti ni sc fs].
  cbn in Hm. subst mo.
  destruct ev as [|p| |e|id ctor|bot acts]; try done.
  cbn [handle]. unfold timer_fires, exec, get_st. cbv [mbind M_bind]. cbn [timers].
  destruct (bool_decide (id ∈ ti.*1)); [|done].
  cbn. split; [done|]. split; [apply sublist_filter|done].
Qed.

(** X7. After the cleanup of the effect, the socket that was held is closed
    and the reconnect timer that was held is no longer pending; from then
    on, whatever socket events and timer expiries still arrive (open,
    frames, close, timers), no cell, ref or console line changes, no socket
    or timer is created and no fetch is started: only pending timers
    disappear as they elapse. *)
Theorem nothing_happens_after_cleanup (c : client) (evs : list event) :
  Forall guarded evs ->
  let stopped := exec cleanup c in
  let final := run_events evs stopped in
  with_timers [] final = with_timers [] stopped /\
  timers final `sublist_of` timers stopped /\
  (forall w, wsRef c = Some w -> w ∈ sockets_closed stopped) /\
  (forall id, reconnectTimeoutRef c = Some id -> id ∉ (timers stopped).*1).
Proof.
  intros HF. cbv zeta.
  assert (Hm : mountedRef (exec cleanup c) = false).
  { destruct c as [ic st tr ac er [w|] [id|] rd mo co ti ni sc fs]; reflexivity. }
  split; [|split; [|split]].
  - revert Hm. generalize (exec cleanup c). intros s Hm.
    induction HF as [|ev evs Hg _ IH] in s, Hm |- *; [done|].
    unfold run_events. cbn [foldl]. fold (run_events evs (exec (handle ev) s)).
    destruct (guarded_event_unmounted s ev Hm Hg) as (Hw & _ & Hm').
    rewrite IH by done. done.
  - revert Hm. generalize (exec cleanup c). intros s Hm.
    induction HF as [|ev evs Hg _ IH] in s, Hm |- *; [done|].
    unfold run_events. cbn [foldl]. fold (run_events evs (exec (handle ev) s)).
    destruct (guarded_event_unmounted s ev Hm Hg) as (_ & Hs & Hm').
    etrans; [by apply IH|done].
  - intros w Hw. destruct c as [ic st tr ac er ws [id|] rd mo co ti ni sc fs];
      cbn in Hw; subst ws; cbn; apply elem_of_app; right; apply list_elem_of_here.
  - intros id Hid. destruct c as [ic st tr ac er [w|] rt rd mo co ti ni sc fs];
      cbn in Hid; subst rt; cbn;
      (intros Hin; apply list_elem_of_fmap in Hin as ([id' d] & -> & Hin);
       apply list_elem_of_filter in Hin as [Hne _]; by apply Hne).
Qed.

Lemma nothing_happens_after_cleanup_witness :
  let c := exec onclose (exec (effect None) initial_client) in
  let stopped := exec cleanup c in
  let final :=
    run_events [EvTimer 2 None; EvClose; EvOpen;
                EvMessage (snapshot_frame (buys 3))] stopped in
  with_timers [] final = with_timers [] stopped /\
  timers final `sublist_of` timers stopped /\
  (forall w, wsRef c = Some w -> w ∈ sockets_closed stopped) /\
  (forall id, reconnectTimeoutRef c = Some id -> id ∉ (timers stopped).*1).
Proof.
  apply (nothing_happens_after_cleanup
           (exec onclose (exec (effect None) initial_client))).
  repeat constructor.
Defined.

(** X8. The effect on mount.  When the WebSocket constructor returns, one
    socket is created and held, one fallback fetch is started, no timer is
    armed and [error] is untouched.  When the constructor throws, no socket
    is held anew, [error] is set, no reconnect timer is armed, and the
    fallback fetch is started twice: once by the [catch] of [connect] and
    once by the effect itself. *)
Theorem mount_starts_socket_and_fetch (c : client) (e : exn) :
  (let c' := exec (effect None) c in
   mountedRef c' = true /\ wsRef c' = Some (next_id c) /\
   fetches_started c' = S (fetches_started c) /\
   timers c' = timers c /\ error c' = error c) /\
  (let c' := exec (effect (Some e)) c in
   mountedRef c' = true /\ wsRef c' = wsRef c /\
   fetches_started c' = S (S (fetches_started c)) /\
   timers c' = timers c /\ next_id c' = next_id c /\
   error c' = Some "Failed to connect to bot").
Proof.
  destruct c as [ic st tr ac er [w|] rt rd mo co ti ni sc fs]; done.
Qed.

(** X9. [connect()] on a mounted client whose constructor returns closes
    the socket held before (if any), keeps every socket already closed
    closed, and holds a socket with a fresh identifier; on an unmounted
    client it does nothing. *)
Theorem connect_replaces_socket (c : client) :
  (mountedRef c = true ->
   let c' := exec (connect None) c in
   wsRef c' = Some (next_id c) /\ next_id c' = S (next_id c) /\
   (forall w, wsRef c = Some w -> w ∈ sockets_closed c') /\
   (forall w, w ∈ sockets_closed c -> w ∈ sockets_closed c') /\
   timers c' = timers c /\ fetches_started c' = fetches_started c) /\
  (mountedRef c = false -> forall ctor, exec (connect ctor) c = c).
Proof.
  destruct c as [ic st tr ac er ws rt rd mo co ti ni sc fs]. split.
  - cbn [mountedRef]. intros ->. destruct ws as [w0|]; cbn.
    + repeat split; [|intros w Hw; apply elem_of_app; by left].
      intros w [= ->]. apply elem_of_app. right. apply list_elem_of_here.
    + repeat split; [|by intros w Hw]. intros w [=].
  - cbn [mountedRef]. intros -> ctor. reflexivity.
Qed.

Lemma connect_replaces_socket_witness :
  let c := exec (connect None) initial_client in
  let c' := exec (connect None) c in
  wsRef c = Some 1 /\ wsRef c' = Some 2 /\ 1 ∈ sockets_closed c'.
Proof.
  cbv zeta.
  pose proof (proj1 (connect_replaces_socket (exec (connect None) initial_client))
                eq_refl) as (Hw & _ & Hc & _).
  split; [reflexivity|]. split; [exact Hw|]. apply Hc. reflexivity.
Defined.

(** ** The shape of the backoff *)

Ltac qc_le := unfold Qcle, Qle; vm_compute; discriminate.

Lemma backoff_orbit_order (d : Qc) :
  d ∈ backoff_orbit ->
  (RECONNECT_DELAY <= d)%Qc /\ (d <= backoff_step d)%Qc /\
  (backoff_step d <= MAX_RECONNECT_DELAY)%Qc.
Proof.
  intros Hd. unfold backoff_orbit in Hd.
  repeat (apply elem_of_cons in Hd as [->|Hd]); [..|by apply elem_of_nil in Hd];
    (split; [qc_le|split; qc_le]).
Qed.

Lemma backoff_cap_reached (k : nat) :
  6 <= k -> Nat.iter k backoff_step RECONNECT_DELAY = MAX_RECONNECT_DELAY.
Proof.
  induction 1 as [|k _ IH].
  - apply Qc_is_canon. reflexivity.
  - change (Nat.iter (S k) backoff_step RECONNECT_DELAY)
      with (backoff_step (Nat.iter k backoff_step RECONNECT_DELAY)).
    rewrite IH. apply Qc_is_canon. reflexivity.
Qed.

(** X10. From the base delay, the delay armed at the [N]-th consecutive
    failure never decreases from one failure to the next, stays between
    3000 and 30000, and is exactly 30000 from the seventh failure on. *)
Theorem backoff_monotone_then_flat (c : client) (N : nat) :
  mountedRef c = true ->
  reconnectDelayRef c = RECONNECT_DELAY ->
  1 <= N ->
  exists d d' : Qc,
    scheduled_delay (nth_failure N c) = Some d /\
    scheduled_delay (nth_failure (S N) c) = Some d' /\
    (num 3000 <= d)%Qc /\ (d <= d')%Qc /\ (d' <= num 30000)%Qc /\
    (7 <= N -> d = num 30000).
Proof.
  intros Hm Hd HN.
  destruct (delay_after_cycles_iter c (N - 1) Hm) as [Hm1 Hd1].
  destruct (delay_after_cycles_iter c (S N - 1) Hm) as [Hm2 Hd2].
  rewrite Hd in Hd1, Hd2.
  exists (Nat.iter (N - 1) backoff_step RECONNECT_DELAY),
         (Nat.iter (S N - 1) backoff_step RECONNECT_DELAY).
  unfold nth_failure. rewrite !scheduled_delay_onclose by done.
  rewrite Hd1, Hd2. split; [done|]. split; [done|].
  replace (S N - 1) with (S (N - 1)) by lia.
  change (Nat.iter (S (N - 1)) backoff_step RECONNECT_DELAY)
    with (backoff_step (Nat.iter (N - 1) backoff_step RECONNECT_DELAY)).
  destruct (backoff_orbit_order _ (backoff_orbit_closed (N - 1))) as (H1 & H2 & H3).
  repeat split; try done.
  intros H7. apply backoff_cap_reached. lia.
Qed.

Lemma backoff_monotone_then_flat_witness :
  exists d d' : Qc,
    scheduled_delay (nth_failure 7 initial_client) = Some d /\
    scheduled_delay (nth_failure 8 initial_client) = Some d' /\
    (num 3000 <= d)%Qc /\ (d <= d')%Qc /\ (d' <= num 30000)%Qc /\
    (7 <= 7 -> d = num 30000).
Proof.
  apply (backoff_monotone_then_flat initial_client 7); [reflexivity|reflexivity|lia].
Defined.

(** ** The actions route *)

Lemma project_defined {S} (x : value) (s : S) :
  nullish x = false ->
  exists o : gmap string value,
    ActionsRoute.project x s = (Ok (VObj o), s) /\
    to_json (VObj o) = ActionsRoute.entry_view x.
Proof.
  intros Hx. destruct x; try discriminate Hx; eexists; split; reflexivity.
Qed.

Lemma project_throws {S} (x : value) (s : S) :
  nullish x = true -> exists e, ActionsRoute.project x s = (Throw e, s).
Proof. intros Hx. destruct x; try discriminate Hx; eexists; reflexivity. Qed.

Lemma mapM_project_defined {S} (l : list value) (s : S) :
  Forall (fun x => nullish x = false) l ->
  exists l' : list value,
    mapM ActionsRoute.project l s = (Ok l', s) /\
    map (fun x => if is_undefined x then VNull else to_json x) l' =
    map ActionsRoute.entry_view l.
Proof.
  induction 1 as [|x l Hx _ (l' & IH1 & IH2)].
  - exists []. done.
  - destruct (project_defined x s Hx) as (o & Ho1 & Ho2).
    exists (VObj o :: l'). split.
    + cbn [mapM]. cbv [mbind M_bind]. rewrite Ho1, IH1. reflexivity.
    + cbn [map is_undefined]. by rewrite Ho2, IH2.
Qed.

Lemma mapM_project_throws {S} (l : list value) (s : S) :
  Exists (fun x => nullish x = true) l ->
  exists e, mapM ActionsRoute.project l s = (Throw e, s).
Proof.
  induction 1 as [x l Hx|x l _ [e IH]].
  - destruct (project_throws x s Hx) as [e He]. exists e.
    cbn [mapM]. cbv [mbind M_bind]. by rewrite He.
  - destruct (nullish x) eqn:Hx.
    + destruct (project_throws x s Hx) as [e' He]. exists e'.
      cbn [mapM]. cbv [mbind M_bind]. by rewrite He.
    + destruct (project_defined x s Hx) as (o & Ho & _). exists e.
      cbn [mapM]. cbv [mbind M_bind]. by rewrite Ho, IH.
Qed.

Lemma actions_route_array (l : list value) (log : list string) :
  ActionsRoute.GET (BotRoute.FileContent (Parsed (VArr l))) log =
  match mapM ActionsRoute.project (rev (js_slice (-50) None l)) log with
  | (Ok projected, log') =>
      (Ok (BotRoute.NextResponse_json
             (VObj (list_to_map [("actions", VArr projected)])) 200), log')
  | (Throw error, log') =>
      (Ok (BotRoute.NextResponse_json
             (VObj (list_to_map
                [("actions", VArr []); ("error", VStr (String_of_exn error))])) 500),
       log' ++ ["Error reading actions: " +:+ String_of_exn error])
  end.
Proof.
  unfold ActionsRoute.GET, BotRoute.readFile_parse, BotRoute.existsSync,
    ActionsRoute.slice_reverse, JSON_parse, try_catch, modify.
  cbv [mbind M_bind mret M_ret negb].
  destruct (mapM ActionsRoute.project (rev (js_slice (-50) None l)) log) as [[pr|e] log'];
    reflexivity.
Qed.

(** X11. When the actions file exists and parses to an array without null
    entries, the handler answers 200 and [actions] holds the last 50 entries
    of the file, the most recent (last written) first, each reduced to its
    [timestamp], [type], [description] and [details]: at most 50 entries,
    and no other property of an entry gets through. *)
Theorem actions_route_recent_first (l : list value) :
  Forall (fun x => nullish x = false) l ->
  let r := ActionsRoute.GET_response (BotRoute.FileContent (Parsed (VArr l))) in
  BotRoute.status r = 200 /\
  BotRoute.body_field r "actions" =
    Some (VArr (ActionsRoute.entry_view <$> take 50 (rev l))) /\
  length (take 50 (rev l)) <= 50 /\
  (forall (m : gmap string value) (k : string),
     field k (ActionsRoute.entry_view (VObj m)) =
     if bool_decide (k ∈ ["timestamp"; "type"; "description"; "details"])
     then m !! k ≫= json_prop else None).
Proof.
  intros Hl. cbv zeta.
  assert (Hrev : rev (js_slice (-50) None l) = take 50 (rev l)).
  { rewrite (js_slice_suffix 50) by lia. apply rev_last_n. }
  assert (Hl' : Forall (fun x => nullish x = false) (take 50 (rev l))).
  { apply Forall_take. by apply Forall_rev. }
  destruct (mapM_project_defined (S:=list string) _ [] Hl') as (l' & Hm1 & Hm2).
  unfold ActionsRoute.GET_response. rewrite actions_route_array, Hrev, Hm1.
  split; [reflexivity|]. split; [|split].
  - unfold BotRoute.body_field, BotRoute.NextResponse_json.
    cbn [BotRoute.body to_json list_to_map foldr uncurry fst snd].
    rewrite lookup_omap, lookup_insert_eq.
    cbn [mbind option_bind is_undefined to_json]. by rewrite Hm2.
  - rewrite length_take. lia.
  - intros m k. unfold ActionsRoute.entry_view, field.
    cbn [to_json list_to_map foldr uncurry fst snd].
    rewrite lookup_omap. case_bool_decide as Hk.
    + repeat (apply elem_of_cons in Hk as [->|Hk]); [..|by apply elem_of_nil in Hk];
        map_lookup; unfold json_prop; by destruct (m !! _).
    + assert (k <> "timestamp" /\ k <> "type" /\ k <> "description" /\ k <> "details")
        as (H1 & H2 & H3 & H4).
      { repeat split; intros ->; apply Hk; in_table. }
      by rewrite !lookup_insert_ne, lookup_empty by done.
Qed.

Lemma actions_route_recent_first_witness :
  let l := [VObj {[ "type" := VStr "analyze"; "secret" := VStr "x" ]};
            VObj {[ "type" := VStr "claim" ]}] in
  let r := ActionsRoute.GET_response (BotRoute.FileContent (Parsed (VArr l))) in
  BotRoute.status r = 200 /\
  BotRoute.body_field r "actions" =
    Some (VArr (ActionsRoute.entry_view <$> take 50 (rev l))).
Proof.
  cbv zeta.
  pose proof (actions_route_recent_first
                [VObj {[ "type" := VStr "analyze"; "secret" := VStr "x" ]};
                 VObj {[ "type" := VStr "claim" ]}]) as H.
  destruct H as (H1 & H2 & _).
  - repeat constructor.
  - split; [exact H1|exact H2].
Defined.

(** X12. The failures of the actions route.  An absent file gives 200 with
    an empty [actions]; a file that cannot be read or parsed gives 500 with
    an empty [actions] and the error's text; so does a file that parses to
    anything but an array, and an array with a null entry among its last
    50. *)
Theorem actions_route_failures (e : exn) (v : value) (l : list value) :
  let answer f := ActionsRoute.GET_response f in
  (BotRoute.status (answer BotRoute.FileMissing) = 200 /\
   BotRoute.body_field (answer BotRoute.FileMissing) "actions" = Some (VArr [])) /\
  (forall f, f = BotRoute.FileUnreadable e \/ f = BotRoute.FileContent (ParseThrows e) ->
     BotRoute.status (answer f) = 500 /\
     BotRoute.body_field (answer f) "actions" = Some (VArr []) /\
     BotRoute.body_field (answer f) "error" = Some (VStr (String_of_exn e))) /\
  ((forall l', v <> VArr l') ->
     BotRoute.status (answer (BotRoute.FileContent (Parsed v))) = 500 /\
     BotRoute.body_field (answer (BotRoute.FileContent (Parsed v))) "actions"
       = Some (VArr [])) /\
  (Exists (fun x => nullish x = true) (take 50 (rev l)) ->
     BotRoute.status (answer (BotRoute.FileContent (Parsed (VArr l)))) = 500 /\
     BotRoute.body_field (answer (BotRoute.FileContent (Parsed (VArr l)))) "actions"
       = Some (VArr [])).
Proof.
  cbv zeta. split; [|split; [|split]].
  - split; reflexivity.
  - intros f [-> | ->]; repeat split.
  - intros Hv. destruct v; try (split; reflexivity). by destruct (Hv l0).
  - intros Hex.
    assert (Hrev : rev (js_slice (-50) None l) = take 50 (rev l)).
    { rewrite (js_slice_suffix 50) by lia. apply rev_last_n. }
    destruct (mapM_project_throws (S:=list string) _ [] Hex) as [e' He'].
    unfold ActionsRoute.GET_response. rewrite actions_route_array, Hrev, He'.
    split; reflexivity.
Qed.

Lemma actions_route_failures_witness :
  BotRoute.status (ActionsRoute.GET_response
                     (BotRoute.FileContent (Parsed (VObj ∅)))) = 500 /\
  BotRoute.status (ActionsRoute.GET_response
                     (BotRoute.FileContent (Parsed (VArr [VStr "a"; VNull])))) = 500.
Proof.
  pose proof (actions_route_failures (Exn "Error" "EACCES") (VObj ∅) [VStr "a"; VNull])
    as (_ & _ & Hv & Hl).
  split.
  - apply Hv. intros l' H. discriminate H.
  - apply Hl. apply Exists_cons_hd. reflexivity.
Defined.

(** ** From the files to the view *)

(** The fallback body on two responses whose bodies are objects. *)
Lemma fetch_objects (c : client) (okb oka : bool) (mb ma : gmap string value) :
  let sb := default VUndefined (mb !! "state") in
  let aa := default VUndefined (ma !! "actions") in
  let c' := exec (fetchInitialState (Resolved (Response okb (Parsed (VObj mb))))
                    (Resolved (Response oka (Parsed (VObj ma))))) c in
  state c' = (if okb && truthy sb then sb else state c) /\
  actions c' = (if oka && truthy aa then as_array aa else actions c) /\
  trades c' = trades c.
Proof.
  cbv zeta. destruct c. run_fetch.
  destruct okb, oka; cbn [andb];
    destruct (mb !! "state") as [sb|]; destruct (ma !! "actions") as [aa|];
    cbn [truthy];
    try destruct (truthy sb); try destruct (truthy aa); done.
Qed.

(** Every answer of the bot-state route has an object as body. *)
Lemma bot_route_object (f : BotRoute.state_file) :
  exists mb : gmap string value,
    BotRoute.body (BotRoute.GET_response f) = VObj mb.
Proof.
  destruct f as [|e|[e|v]]; try (eexists; reflexivity).
  destruct v; eexists; reflexivity.
Qed.

Lemma actions_route_object (f : BotRoute.state_file) :
  exists ma : gmap string value,
    BotRoute.body (ActionsRoute.GET_response f) = VObj ma.
Proof.
  destruct f as [|e|[e|v]]; try (eexists; reflexivity).
  destruct v; try (eexists; reflexivity).
  unfold ActionsRoute.GET_response. rewrite actions_route_array.
  destruct (mapM _ _ _) as [[pr|e] log']; eexists; reflexivity.
Qed.

Lemma fetch_route_object (r : BotRoute.http_response) (m : gmap string value) :
  BotRoute.body r = VObj m ->
  fetch_route r =
  Resolved (Response ((200 <=? BotRoute.status r) && (BotRoute.status r <=? 299))
              (Parsed (VObj m))).
Proof. intros H. unfold fetch_route. by rewrite H. Qed.

(** X13. The state file seen through the route and the fallback fetch,
    whatever the actions file holds.  An absent state file, an unreadable or
    unparseable one, and one holding [null] leave the state cell as it was;
    a state file that parses to an object makes the state cell the [state]
    object of the route's answer, so each field of the cell is the route's
    field. *)
Theorem state_file_to_view (c : client) (fb fa : BotRoute.state_file) :
  let c' := exec (fetchInitialState (fetch_route (BotRoute.GET_response fb))
                    (fetch_route (ActionsRoute.GET_response fa))) c in
  ((fb = BotRoute.FileMissing \/ fb = BotRoute.FileContent (Parsed VNull) \/
    (exists e, fb = BotRoute.FileUnreadable e) \/
    (exists e, fb = BotRoute.FileContent (ParseThrows e))) ->
   state c' = state c) /\
  (forall m, fb = BotRoute.FileContent (Parsed (VObj m)) ->
     BotRoute.body_field (BotRoute.GET_response fb) "state" = Some (state c') /\
     forall k, field k (state c') = BotRoute.state_field (BotRoute.GET_response fb) k).
Proof.
  cbv zeta.
  destruct (actions_route_object fa) as [ma Hma].
  rewrite (fetch_route_object _ ma Hma).
  split.
  - intros Hfb.
    destruct (bot_route_object fb) as [mb Hmb].
    rewrite (fetch_route_object _ mb Hmb).
    destruct (fetch_objects c
                ((200 <=? BotRoute.status (BotRoute.GET_response fb)) &&
                 (BotRoute.status (BotRoute.GET_response fb) <=? 299))
                ((200 <=? BotRoute.status (ActionsRoute.GET_response fa)) &&
                 (BotRoute.status (ActionsRoute.GET_response fa) <=? 299)) mb ma)
      as (-> & _ & _).
    destruct Hfb as [-> | [-> | [[e ->] | [e ->]]]];
      cbn in Hmb; injection Hmb as <-; reflexivity.
  - intros m ->.
    set (r := BotRoute.GET_response (BotRoute.FileContent (Parsed (VObj m)))).
    assert (exists mb s : gmap string value,
              BotRoute.body r = VObj mb /\ BotRoute.status r = 200 /\
              mb !! "state" = Some (VObj s)) as (mb & s & Hmb & Hst & Hs).
    { do 2 eexists. split; [reflexivity|]. split; [reflexivity|].
      rewrite lookup_omap. cbn [list_to_map foldr uncurry fst snd].
      map_lookup. reflexivity. }
    rewrite (fetch_route_object _ mb Hmb).
    destruct (fetch_objects c
                ((200 <=? BotRoute.status r) && (BotRoute.status r <=? 299))
                ((200 <=? BotRoute.status (ActionsRoute.GET_response fa)) &&
                 (BotRoute.status (ActionsRoute.GET_response fa) <=? 299)) mb ma)
      as (-> & _ & _).
    rewrite Hst, Hs. cbn [Nat.leb andb default from_option id truthy].
    unfold BotRoute.body_field, BotRoute.state_field. rewrite Hmb, Hs.
    split; [done|]. intros k. reflexivity.
Qed.

Lemma state_file_to_view_witness :
  let c := exec (setState (buys 5)) initial_client in
  state (exec (fetchInitialState (fetch_route (BotRoute.GET_response BotRoute.FileMissing))
                 (fetch_route (ActionsRoute.GET_response BotRoute.FileMissing))) c)
    = state c /\
  field "totalBuys"
    (state (exec (fetchInitialState
                    (fetch_route (BotRoute.GET_response
                       (BotRoute.FileContent (Parsed (VObj {[ "total_buys" := VNum (num 3) ]})))))
                    (fetch_route (ActionsRoute.GET_response BotRoute.FileMissing))) c))
    = BotRoute.state_field
        (BotRoute.GET_response
           (BotRoute.FileContent (Parsed (VObj {[ "total_buys" := VNum (num 3) ]}))))
        "totalBuys".
Proof.
  cbv zeta. split.
  - apply (proj1 (state_file_to_view (exec (setState (buys 5)) initial_client)
                    BotRoute.FileMissing BotRoute.FileMissing)).
    left. reflexivity.
  - apply (proj2 (state_file_to_view (exec (setState (buys 5)) initial_client)
                    (BotRoute.FileContent
                       (Parsed (VObj {[ "total_buys" := VNum (num 3) ]})))
                    BotRoute.FileMissing)
             {[ "total_buys" := VNum (num 3) ]} eq_refl).
Defined.

(** X14. The actions file seen through the route and the fallback fetch,
    whatever the state file holds.  An actions file that parses to an array
    without null entries makes [actions] its last 50 entries, newest first,
    in their four-property form; a file the route fails on (500) leaves
    [actions] as it was; an absent file empties [actions], since the route
    then answers 200 with an empty array, which is truthy. *)
Theorem actions_file_to_view (c : client) (fb fa : BotRoute.state_file) :
  let c' := exec (fetchInitialState (fetch_route (BotRoute.GET_response fb))
                    (fetch_route (ActionsRoute.GET_response fa))) c in
  (forall l, fa = BotRoute.FileContent (Parsed (VArr l)) ->
     Forall (fun x => nullish x = false) l ->
     actions c' = ActionsRoute.entry_view <$> take 50 (rev l) /\
     length (actions c') <= 50) /\
  (BotRoute.status (ActionsRoute.GET_response fa) = 500 -> actions c' = actions c) /\
  (fa = BotRoute.FileMissing -> actions c' = []).
Proof.
  cbv zeta.
  destruct (bot_route_object fb) as [mb Hmb].
  rewrite (fetch_route_object _ mb Hmb).
  destruct (actions_route_object fa) as [ma Hma].
  rewrite (fetch_route_object _ ma Hma).
  destruct (fetch_objects c
              ((200 <=? BotRoute.status (BotRoute.GET_response fb)) &&
               (BotRoute.status (BotRoute.GET_response fb) <=? 299))
              ((200 <=? BotRoute.status (ActionsRoute.GET_response fa)) &&
               (BotRoute.status (ActionsRoute.GET_response fa) <=? 299)) mb ma)
    as (_ & -> & _).
  split; [|split].
  - intros l -> Hl.
    assert (Hrev : rev (js_slice (-50) None l) = take 50 (rev l)).
    { rewrite (js_slice_suffix 50) by lia. apply rev_last_n. }
    assert (Hl' : Forall (fun x => nullish x = false) (take 50 (rev l))).
    { apply Forall_take. by apply Forall_rev. }
    destruct (mapM_project_defined (S:=list string) _ [] Hl') as (l' & Hm1 & Hm2).
    revert Hma. unfold ActionsRoute.GET_response.
    rewrite actions_route_array, Hrev, Hm1.
    unfold BotRoute.NextResponse_json.
    cbn [BotRoute.body BotRoute.status to_json list_to_map foldr uncurry fst snd].
    intros [= <-]. rewrite lookup_omap, lookup_insert_eq.
    cbn [mbind option_bind is_undefined to_json default from_option id truthy
         Nat.leb andb as_array].
    rewrite Hm2. split; [done|]. rewrite length_fmap, length_take. lia.
  - intros ->. reflexivity.
  - intros ->. cbn in Hma. injection Hma as <-. reflexivity.
Qed.

Lemma actions_file_to_view_witness :
  let c := exec (setActions [VStr "streamed"]) initial_client in
  let c' := exec (fetchInitialState
                    (fetch_route (BotRoute.GET_response BotRoute.FileMissing))
                    (fetch_route (ActionsRoute.GET_response BotRoute.FileMissing))) c in
  actions c = [VStr "streamed"] /\ actions c' = [].
Proof.
  cbv zeta. split; [reflexivity|].
  apply (proj2 (proj2 (actions_file_to_view
                         (exec (setActions [VStr "streamed"]) initial_client)
                         BotRoute.FileMissing BotRoute.FileMissing))).
  reflexivity.
Defined.

(** ** The components *)

Lemma str_length_app (a b : string) :
  String.length (a +:+ b) = String.length a + String.length b.
Proof.
  induction a as [|x a IH]; [done|].
  change (String x a +:+ b) with (String x (a +:+ b)).
  cbn [String.length]. by rewrite IH.
Qed.

Lemma str_length_of_list (l : list Ascii.ascii) :
  String.length (Strings.String.string_of_list_ascii l) = length l.
Proof. induction l as [|x l IH]; [done|]. cbn. by rewrite IH. Qed.

Lemma list_length_of_str (s : string) :
  length (Strings.String.list_ascii_of_string s) = String.length s.
Proof. induction s as [|x s IH]; [done|]. cbn. by rewrite IH. Qed.

Lemma str_app_inj_length (a b x y : string) :
  String.length a = String.length b -> a +:+ x = b +:+ y -> a = b /\ x = y.
Proof.
  revert b. induction a as [|c a IH]; intros [|d b] Hlen Heq; try discriminate Hlen.
  - done.
  - change (String c a +:+ x) with (String c (a +:+ x)) in Heq.
    change (String d b +:+ y) with (String d (b +:+ y)) in Heq.
    cbn in Hlen. injection Heq as -> Heq. injection Hlen as Hlen.
    destruct (IH b Hlen Heq) as [-> ->]. done.
Qed.

(** The two-character fields of the clock, checked over 0..99. *)
Lemma two_digits_length (n : N) :
  (n < 100)%N -> String.length (padStart 2 "0" (pretty n)) = 2.
Proof.
  intros Hn.
  assert (Hall : forallb (fun k => Nat.eqb (String.length
                   (padStart 2 "0" (pretty (N.of_nat k)))) 2) (seq 0 100) = true)
    by (vm_compute; reflexivity).
  rewrite forallb_forall in Hall.
  specialize (Hall (N.to_nat n)). rewrite N2Nat.id in Hall.
  apply Nat.eqb_eq, Hall, in_seq. lia.
Qed.

Lemma two_digits_inj (a b : N) :
  (a < 100)%N -> (b < 100)%N ->
  padStart 2 "0" (pretty a) = padStart 2 "0" (pretty b) -> a = b.
Proof.
  intros Ha Hb Heq.
  assert (Hall : forallb (fun i => forallb (fun j =>
                   implb (String.eqb (padStart 2 "0" (pretty (N.of_nat i)))
                                     (padStart 2 "0" (pretty (N.of_nat j))))
                         (Nat.eqb i j)) (seq 0 100)) (seq 0 100) = true)
    by (vm_compute; reflexivity).
  rewrite forallb_forall in Hall.
  specialize (Hall (N.to_nat a)). rewrite forallb_forall in Hall.
  specialize (Hall ltac:(apply in_seq; lia) (N.to_nat b) ltac:(apply in_seq; lia)).
  rewrite !N2Nat.id, Heq, String.eqb_refl in Hall. cbn [implb] in Hall.
  apply Nat.eqb_eq in Hall. lia.
Qed.

(** X15. Below 100 hours (360000 seconds) the session clock is 8 characters
    long, and two different session counts never give the same text. *)
Theorem formatSession_clock (a b : N) :
  (a < 360000)%N -> (b < 360000)%N ->
  String.length (StatusBar.formatSession a) = 8 /\
  (StatusBar.formatSession a = StatusBar.formatSession b -> a = b).
Proof.
  intros Ha Hb.
  assert (Hf : forall n, (n < 360000)%N ->
            (n / 3600 < 100)%N /\ (n mod 3600 / 60 < 100)%N /\ (n mod 60 < 100)%N).
  { intros n Hn. zify. Z.to_euclidean_division_equations. lia. }
  destruct (Hf a Ha) as (Ha1 & Ha2 & Ha3). destruct (Hf b Hb) as (Hb1 & Hb2 & Hb3).
  unfold StatusBar.formatSession. split.
  - rewrite !str_length_app, !two_digits_length by done. reflexivity.
  - intros Heq.
    apply str_app_inj_length in Heq as [H1 Heq];
      [|by rewrite !two_digits_length].
    apply (str_app_inj_length ":" ":") in Heq as [_ Heq]; [|done].
    apply str_app_inj_length in Heq as [H2 Heq];
      [|by rewrite !two_digits_length].
    apply (str_app_inj_length ":" ":") in Heq as [_ H3]; [|done].
    apply two_digits_inj in H1, H2, H3; try done.
    zify. Z.to_euclidean_division_equations. lia.
Qed.

Lemma formatSession_clock_witness :
  String.length (StatusBar.formatSession 3661) = 8 /\
  (StatusBar.formatSession 3661 = StatusBar.formatSession 3661 -> 3661%N = 3661%N).
Proof. apply formatSession_clock; reflexivity. Defined.

(** X16. [formatWallet] answers "anon" for the empty wallet and for
    "Unknown"; for any other wallet it gives its first four and last four
    characters around three dots, never more than 11 characters (for a
    wallet of at most four characters the whole wallet appears on both
    sides). *)
Theorem formatWallet_shortens (wallet : string) :
  (wallet = "" \/ wallet = "Unknown" -> ActivityLog.formatWallet wallet = "anon") /\
  (wallet <> "" -> wallet <> "Unknown" ->
   let chars := Strings.String.list_ascii_of_string wallet in
   ActivityLog.formatWallet wallet =
     Strings.String.string_of_list_ascii (take 4 chars) +:+ "..." +:+
     Strings.String.string_of_list_ascii (last_n 4 chars) /\
   String.length (ActivityLog.formatWallet wallet) =
     Nat.min 4 (String.length wallet) + 3 + Nat.min 4 (String.length wallet)) /\
  String.length (ActivityLog.formatWallet wallet) <= 11.
Proof.
  assert (Hform : wallet <> "" -> wallet <> "Unknown" ->
            ActivityLog.formatWallet wallet =
              Strings.String.string_of_list_ascii
                (take 4 (Strings.String.list_ascii_of_string wallet)) +:+ "..." +:+
              Strings.String.string_of_list_ascii
                (last_n 4 (Strings.String.list_ascii_of_string wallet))).
  { intros H1 H2. unfold ActivityLog.formatWallet, str_slice.
    apply String.eqb_neq in H1, H2. rewrite H1, H2. cbn [orb].
    rewrite (js_slice_prefix 4), (js_slice_suffix 4) by lia. reflexivity. }
  assert (Hlen : wallet <> "" -> wallet <> "Unknown" ->
            String.length (ActivityLog.formatWallet wallet) =
              Nat.min 4 (String.length wallet) + 3 + Nat.min 4 (String.length wallet)).
  { intros H1 H2. rewrite Hform by done.
    rewrite !str_length_app, !str_length_of_list. unfold last_n.
    rewrite length_take, length_drop, !list_length_of_str.
    change (String.length "...") with 3. lia. }
  split; [|split].
  - intros [-> | ->]; reflexivity.
  - intros H1 H2. cbv zeta. split; [by apply Hform|by apply Hlen].
  - destruct (decide (wallet = "")) as [->|H1]; [cbn; lia|].
    destruct (decide (wallet = "Unknown")) as [->|H2]; [cbn; lia|].
    rewrite Hlen by done. lia.
Qed.

Lemma formatWallet_shortens_witness :
  ActivityLog.formatWallet "Unknown" = "anon" /\
  String.length (ActivityLog.formatWallet "7xKXtg2CW87d97TXJSDpbD5jBkheTqA83TZRuJosgAsU") =
    Nat.min 4 44 + 3 + Nat.min 4 44.
Proof.
  split.
  - apply (proj1 (formatWallet_shortens "Unknown")). right. reflexivity.
  - apply (proj1 (proj2 (formatWallet_shortens
                           "7xKXtg2CW87d97TXJSDpbD5jBkheTqA83TZRuJosgAsU")));
      discriminate.
Defined.

(** X17. The activity log over the hook: once [trade] frames have been
    handled, the entries it renders are the 20 most recent of the previous
    and received trades, the newest first. *)
Theorem activity_log_newest_20 (c : client) (frames : list parse_result) (ts : list value) :
  mountedRef c = true ->
  Forall2 (is_frame "trade") ts frames ->
  ts <> [] \/ length (trades c) <= 50 ->
  ActivityLog.recentTrades (trades (deliver frames c)) = take 20 (rev (trades c ++ ts)).
Proof.
  intros Hm HF Hlen. unfold ActivityLog.recentTrades.
  rewrite (trades_after_frames c frames ts) by done.
  rewrite (js_slice_prefix 20), rev_last_n, take_take. reflexivity.
Qed.

Lemma activity_log_newest_20_witness :
  let frames := [Parsed (VObj {[ "type" := VStr "trade"; "data" := VStr "t1" ]});
                 Parsed (VObj {[ "type" := VStr "trade"; "data" := VStr "t2" ]})] in
  ActivityLog.recentTrades (trades (deliver frames initial_client)) =
  take 20 (rev (trades initial_client ++ [VStr "t1"; VStr "t2"])).
Proof.
  apply activity_log_newest_20.
  - reflexivity.
  - repeat constructor; eexists; (split; [reflexivity|]); split; reflexivity.
  - left. discriminate.
Defined.

(** X18. The neural stream over the hook.  [actions] is held newest first
    and the component reverses it before cutting to 15, so what it renders
    is, in arrival order, the 15 oldest of the (at most 50) actions held:
    after [action] frames handled from an empty list, the first 15 of the
    last 50 received.  An action received while 15 to 49 are held is
    therefore not rendered. *)
Theorem neural_stream_oldest_15 (c : client) (frames : list parse_result)
    (acts : list value) :
  mountedRef c = true ->
  actions c = [] ->
  Forall2 (is_frame "action") acts frames ->
  acts <> [] ->
  NeuralStream.rendered (actions (deliver frames c)) = take 15 (last_n 50 acts) /\
  (forall a, 15 <= length acts < 50 ->
     take 15 (last_n 50 (acts ++ [a])) = take 15 (last_n 50 acts)).
Proof.
  intros Hm Hc HF Hne. split.
  - rewrite (actions_after_frames c frames acts) by auto.
    rewrite Hc, app_nil_r. unfold NeuralStream.rendered, NeuralStream.displayActions.
    assert (Hpos : (0 <? length (take 50 (rev acts)))%nat = true).
    { apply Nat.ltb_lt. rewrite length_take, length_rev.
      destruct acts; [done|]. cbn [length]. lia. }
    rewrite Hpos, (js_slice_prefix 15). f_equal.
    rewrite <- rev_last_n. apply rev_involutive.
  - intros a Hlen. rewrite !last_n_all by (rewrite ?length_app; cbn [length]; lia).
    rewrite take_app_le by lia. reflexivity.
Qed.

Lemma neural_stream_oldest_15_witness :
  let frames := [Parsed (VObj {[ "type" := VStr "action"; "data" := VStr "a1" ]});
                 Parsed (VObj {[ "type" := VStr "action"; "data" := VStr "a2" ]})] in
  NeuralStream.rendered (actions (deliver frames initial_client)) =
  take 15 (last_n 50 [VStr "a1"; VStr "a2"]).
Proof.
  apply (neural_stream_oldest_15 initial_client).
  - reflexivity.
  - reflexivity.
  - repeat constructor; eexists; (split; [reflexivity|]); split; reflexivity.
  - discriminate.
Defined.

Lemma filterM_is_analysis {S} (l : list value) (s : S) :
  Forall (fun x => nullish x = false) l ->
  filterM AnalysisStream.is_analysis l s =
  (Ok (List.filter AnalysisStream.analysis_type l), s).
Proof.
  induction 1 as [|x l Hx _ IH]; [done|].
  cbn [filterM List.filter]. cbv [mbind M_bind]. 
  assert (Hx' : AnalysisStream.is_analysis x s = (Ok (AnalysisStream.analysis_type x), s)).
  { destruct x; try discriminate Hx; reflexivity. }
  rewrite Hx', IH. reflexivity.
Qed.

(** X19. The analysis stream, on a list without null entries: it renders
    at most five entries, all of type [analyze] or [auto_analyze]; they are
    the last five such entries of the list as held, in reverse order, hence
    (the list being held newest first) the five oldest analyses held, oldest
    first. *)
Theorem analysis_stream_rendered {S} (actions : list value) (s : S) :
  Forall (fun x => nullish x = false) actions ->
  let shown := rev (last_n 5 (List.filter AnalysisStream.analysis_type actions)) in
  AnalysisStream.rendered actions s = (Ok shown, s) /\
  length shown <= 5 /\
  Forall (fun x => AnalysisStream.analysis_type x = true) shown.
Proof.
  intros Hl. cbv zeta. split; [|split].
  - unfold AnalysisStream.rendered, AnalysisStream.analysisActions.
    cbv [mbind M_bind mret M_ret]. rewrite filterM_is_analysis by done.
    by rewrite (js_slice_suffix 5) by lia.
  - rewrite length_rev. apply length_last_n.
  - apply Forall_rev. unfold last_n. apply Forall_drop.
    apply Forall_forall. intros x Hx. apply list_elem_of_In in Hx.
    by apply filter_In in Hx as [_ Hx].
Qed.

Lemma analysis_stream_rendered_witness :
  let actions := [VObj {[ "type" := VStr "claim" ]};
                  VObj {[ "type" := VStr "auto_analyze" ]}] in
  AnalysisStream.rendered actions tt =
  (Ok (rev (last_n 5 (List.filter AnalysisStream.analysis_type actions))), tt).
Proof.
  cbv zeta.
  apply (analysis_stream_rendered (S:=unit)
           [VObj {[ "type" := VStr "claim" ]}; VObj {[ "type" := VStr "auto_analyze" ]}]).
  repeat constructor.
Defined.

(** X20. [ws.onmessage] stores the [data] of an [action] frame without
    looking at it: when [data] is missing or null, the value ends up at the
    head of [actions], and the filter of the analysis stream then throws a
    TypeError on reading its [type]. *)
Theorem null_action_breaks_analysis {S} (c : client) (m : gmap string value) (s : S) :
  mountedRef c = true ->
  m !! "type" = Some (VStr "action") ->
  m !! "data" = None \/ m !! "data" = Some VNull ->
  let c' := exec (onmessage (Parsed (VObj m))) c in
  (exists v, nullish v = true /\ head (actions c') = Some v) /\
  exists msg, AnalysisStream.rendered (actions c') s = (Throw (Exn "TypeError" msg), s).
Proof.
  intros Hm Hty Hd. cbv zeta. rewrite onmessage_action by done.
  destruct c as [ic st tr ac er ws rt rd mo co ti ni sc fs].
  destruct Hd as [-> | ->]; (split; [eexists; split; [|reflexivity]; reflexivity|]);
    eexists; reflexivity.
Qed.

Lemma null_action_breaks_analysis_witness :
  exists msg,
    AnalysisStream.rendered
      (actions (exec (onmessage (Parsed (VObj {[ "type" := VStr "action" ]})))
                  initial_client)) tt =
    (Throw (Exn "TypeError" msg), tt).
Proof.
  apply (null_action_breaks_analysis (S:=unit) initial_client
           {[ "type" := VStr "action" ]} tt); [reflexivity|reflexivity|].
  left. reflexivity.
Defined.

(** ** The hook [useDexScreener] *)

(** X21. [refetch] without a mint (undefined or empty) only sets the error
    text: no request is made, and [loading], [metrics] and [data] keep
    their values. *)
Theorem refetch_without_mint (h : UseDexScreener.hook) (mint : value)
    (tokenMetrics : result value) :
  truthy mint = false ->
  UseDexScreener.refetch mint tokenMetrics h =
  (Ok tt, UseDexScreener.Hook (UseDexScreener.data h) (UseDexScreener.metrics h)
            (UseDexScreener.loading h) (Some "No mint address provided")
            (UseDexScreener.console h)) /\
  fst (UseDexScreener.refetch_begin mint h) = Ok false.
Proof.
  intros Hm. unfold UseDexScreener.refetch, UseDexScreener.refetch_begin.
  rewrite Hm. split; reflexivity.
Qed.

Lemma refetch_without_mint_witness :
  UseDexScreener.error
    (exec (UseDexScreener.refetch (VStr "") (Ok VNull)) UseDexScreener.initial_hook)
  = Some "No mint address provided".
Proof.
  pose proof (refetch_without_mint UseDexScreener.initial_hook (VStr "") (Ok VNull)
                eq_refl) as [H _].
  unfold exec. rewrite H. reflexivity.
Defined.

Lemma refetch_settle_resolved (h : UseDexScreener.hook) (tm : value) :
  let zero := negb (truthy tm) || UseDexScreener.strict_eq_zero (UseDexScreener.market_cap tm) in
  UseDexScreener.refetch_settle (Ok tm) h =
  (Ok tt, UseDexScreener.Hook VNull (if zero then VNull else tm) false
            (if zero then Some "Token not found" else UseDexScreener.error h)
            (UseDexScreener.console h)).
Proof.
  cbv zeta. destruct h as [d me lo er co].
  destruct tm as [| | [|] | q | s | l | m]; try reflexivity.
  - unfold UseDexScreener.refetch_settle, UseDexScreener.try_finally, try_catch.
    cbv [mbind M_bind mret M_ret]. cbn [truthy].
    destruct (negb (Qc_eq_bool q (num 0))); reflexivity.
  - unfold UseDexScreener.refetch_settle, UseDexScreener.try_finally, try_catch.
    cbv [mbind M_bind mret M_ret]. cbn [truthy].
    destruct (negb (s =? "")%string); reflexivity.
  - unfold UseDexScreener.refetch_settle, UseDexScreener.try_finally, try_catch, get_prop.
    cbv [mbind M_bind mret M_ret]. cbn [truthy negb orb UseDexScreener.market_cap].
    destruct (UseDexScreener.strict_eq_zero (default VUndefined (m !! "marketCapUsd")));
      reflexivity.
Qed.

(** X22. [refetch] with a mint never throws and always ends with [loading]
    false.  When the metrics resolve to a truthy value whose market cap is
    not exactly 0 they become [metrics], with [error] and [data] null; when
    they resolve to a falsy value or with a market cap of exactly 0,
    [metrics] and [data] become null and [error] is "Token not found"; when
    the request rejects, [error] is the error's message and the previous
    [metrics] and [data] stay. *)
Theorem refetch_settles (h : UseDexScreener.hook) (mint : value)
    (tokenMetrics : result value) :
  truthy mint = true ->
  let h' := exec (UseDexScreener.refetch mint tokenMetrics) h in
  fst (UseDexScreener.refetch mint tokenMetrics h) = Ok tt /\
  UseDexScreener.loading h' = false /\
  match tokenMetrics with
  | Ok tm =>
      UseDexScreener.data h' = VNull /\
      UseDexScreener.console h' = UseDexScreener.console h /\
      (truthy tm = true ->
       UseDexScreener.strict_eq_zero (UseDexScreener.market_cap tm) = false ->
       UseDexScreener.metrics h' = tm /\ UseDexScreener.error h' = None) /\
      (truthy tm = false \/
       UseDexScreener.strict_eq_zero (UseDexScreener.market_cap tm) = true ->
       UseDexScreener.metrics h' = VNull /\
       UseDexScreener.error h' = Some "Token not found")
  | Throw e =>
      UseDexScreener.metrics h' = UseDexScreener.metrics h /\
      UseDexScreener.data h' = UseDexScreener.data h /\
      UseDexScreener.error h' = Some (exn_message e)
  end.
Proof.
  intros Hm. cbv zeta.
  unfold UseDexScreener.refetch, UseDexScreener.refetch_begin, exec. rewrite Hm.
  destruct h as [d me lo er co]. destruct tokenMetrics as [tm|e]; [|done].
  cbv [mbind M_bind mret M_ret UseDexScreener.setLoading UseDexScreener.setError
       modify negb].
  rewrite refetch_settle_resolved.
  cbn [fst snd UseDexScreener.loading UseDexScreener.data UseDexScreener.console
       UseDexScreener.metrics UseDexScreener.error].
  do 4 (split; [reflexivity|]). split.
  - intros Ht Hz. rewrite Ht, Hz. done.
  - intros [Ht|Hz]; [rewrite Ht|rewrite Hz, orb_true_r]; done.
Qed.

Lemma refetch_settles_witness :
  let h := exec (UseDexScreener.setMetrics (VStr "stale")) UseDexScreener.initial_hook in
  let h' := exec (UseDexScreener.refetch (VStr "mint")
                    (Ok (VObj {[ "marketCapUsd" := VNum (num 0) ]}))) h in
  UseDexScreener.loading h' = false /\
  UseDexScreener.metrics h' = VNull /\
  UseDexScreener.error h' = Some "Token not found".
Proof.
  cbv zeta.
  pose proof (refetch_settles
                (exec (UseDexScreener.setMetrics (VStr "stale")) UseDexScreener.initial_hook)
                (VStr "mint") (Ok (VObj {[ "marketCapUsd" := VNum (num 0) ]})) eq_refl)
    as (_ & Hl & _ & _ & _ & Hz).
  split; [exact Hl|]. apply Hz. right. reflexivity.
Defined.
